(** * The privacy decision pipeline of ent (entc/gen/template/privacy.tmpl)

    A shallow embedding of the generated [privacy] package: the three
    decision values, their formatted variants, the decision context, the
    query and mutation policies and the rule adapters, together with the
    parts of Go's [errors], [fmt] and [context] packages they rest on. *)

From Stdlib Require Import String Ascii List Bool Arith ZArith Lia.
Import ListNotations.
Local Open Scope string_scope.

(** ** Go values that travel through [interface{}] *)

(** A dynamic type: the import path of the package that declares it and
    the text [%T] prints for it, its name qualified by the name of that
    package. Two types are the same type when they agree on both; types
    of different packages can print alike. *)
Record goType := {
  pkgPath : string;
  typeText : string
}.

Definition goType_eqb (s t : goType) : bool :=
  String.eqb (pkgPath s) (pkgPath t) && String.eqb (typeText s) (typeText t).

(** A predeclared type, or a type built from predeclared types alone. *)
Definition builtinType (name : string) : goType :=
  {| pkgPath := ""; typeText := name |}.

(** The three package-level variables of the privacy package. Each holds the
    [*errorString] that [errors.New] allocated for it when the package was
    initialised, so each names one pointer, different from every other. *)
Inductive sentinel := allow | deny | skip.

Definition sentinel_eqb (x y : sentinel) : bool :=
  match x, y with
  | allow, allow | deny, deny | skip, skip => true
  | _, _ => false
  end.

(** A value of type [interface{}]: the nil interface, a value that implements
    [error], or any other value (its dynamic type and the object it refers
    to). [E] is the type of errors, defined below. *)
Inductive any (E : Type) :=
| nilAny
| errAny (e : E)
| valAny (typ : goType) (ref : nat).
Arguments nilAny {E}.
Arguments errAny {E} e.
Arguments valAny {E} typ ref.

(** The text of a message: a string constant, or the text that [fmt.Errorf]
    prints for a format and its operands, kept as that pair; [fmt.render]
    below evaluates it for the verbs this package uses. *)
Inductive text (E : Type) :=
| lit (s : string)
| formatted (format : string) (a : list (any E)).
Arguments lit {E} s.
Arguments formatted {E} format a.

(** Go errors.
    - [sentinelError d]: the value of [Allow], [Deny] or [Skip];
    - [errorString s]: any other result of [errors.New(s)];
    - [wrapError msg err]: [*fmt.wrapError], whose [Unwrap] returns [err];
    - [wrapErrors msg errs]: [*fmt.wrapErrors], whose [Unwrap] returns [errs];
    - [customError typ msg is_method unwrap]: an error type declared by a
      user of the package, with the answers of its [Is] method on the three
      decision variables ([fun _ => false] when it has none) and the non-nil
      errors its [Unwrap] method returns ([[]] when it has none). *)
#[warnings="-register-all"] Inductive error :=
| sentinelError (d : sentinel)
| errorString (s : text error)
| wrapError (msg : text error) (err : option error)
| wrapErrors (msg : text error) (errs : list error)
| customError (typ : goType) (msg : string)
              (is_method : sentinel -> bool) (unwrap : list error).

Abbreviation value := (any error).

Module errors.

(** [errors.Is(err, target)] for a target that is one of the three decision
    variables, the only targets this package passes. [err == target] holds
    exactly when [err] is that variable's pointer.

<<
    func Is(err, target error) bool {
        if err == nil || target == nil { return err == target }
        return is(err, target, isComparable)
    }
    func is(err, target error, targetComparable bool) bool {
        for {
            if targetComparable && err == target { return true }
            if x, ok := err.(interface{ Is(error) bool }); ok && x.Is(target) { return true }
            switch x := err.(type) {
            case interface{ Unwrap() error }:
                err = x.Unwrap()
                if err == nil { return false }
            case interface{ Unwrap() []error }:
                for _, err := range x.Unwrap() {
                    if is(err, target, targetComparable) { return true }
                }
                return false
            default:
                return false
            }
        }
    }
>> *)
Fixpoint is_ (err : error) (target : sentinel) {struct err} : bool :=
  match err with
  | sentinelError d => sentinel_eqb d target
  | errorString _ => false
  | wrapError _ None => false
  | wrapError _ (Some e) => is_ e target
  | wrapErrors _ errs =>
      (fix any_is (l : list error) : bool :=
         match l with
         | [] => false
         | e :: l' => is_ e target || any_is l'
         end) errs
  | customError _ _ is_method unwrap =>
      is_method target ||
      (fix any_is (l : list error) : bool :=
         match l with
         | [] => false
         | e :: l' => is_ e target || any_is l'
         end) unwrap
  end.

Definition Is (err : option error) (target : sentinel) : bool :=
  match err with
  | None => false
  | Some e => is_ e target
  end.

End errors.

(** The decision variables of the package.
<<
    Allow = errors.New("ent/privacy: allow rule")
    Deny = errors.New("ent/privacy: deny rule")
    Skip = errors.New("ent/privacy: skip rule")
>> *)
Definition Allow : error := sentinelError allow.
Definition Deny : error := sentinelError deny.
Definition Skip : error := sentinelError skip.

Definition sentinel_text (d : sentinel) : string :=
  match d with
  | allow => "ent/privacy: allow rule"
  | deny => "ent/privacy: deny rule"
  | skip => "ent/privacy: skip rule"
  end.

(** [err.Error()]. *)
Definition Error (e : error) : text error :=
  match e with
  | sentinelError d => lit (sentinel_text d)
  | errorString s => s
  | wrapError msg _ => msg
  | wrapErrors msg _ => msg
  | customError _ msg _ _ => lit msg
  end.

(** [reflect.TypeOf(x)], for a value other than the nil interface. *)
Definition typeOf (x : value) : option goType :=
  match x with
  | nilAny => None
  | errAny (sentinelError _) | errAny (errorString _) =>
      Some {| pkgPath := "errors"; typeText := "*errors.errorString" |}
  | errAny (wrapError _ _) => Some {| pkgPath := "fmt"; typeText := "*fmt.wrapError" |}
  | errAny (wrapErrors _ _) => Some {| pkgPath := "fmt"; typeText := "*fmt.wrapErrors" |}
  | errAny (customError typ _ _ _) => Some typ
  | valAny typ _ => Some typ
  end.

(** What [%T] prints for [x]. *)
Definition typeString (x : value) : string :=
  match typeOf x with
  | Some t => typeText t
  | None => "<nil>"
  end.

(** The type assertion [x.(T)] for a concrete type [T]: whether it
    succeeds, that is whether the dynamic type of [x] is [T]. *)
Definition typeAssert (x : value) (T : goType) : bool :=
  match typeOf x with
  | Some t => goType_eqb t T
  | None => false
  end.

(** The type assertion [x.(error)]. *)
Definition asError (x : value) : option error :=
  match x with
  | errAny e => Some e
  | _ => None
  end.

(** ** The part of Go's [fmt] package behind [fmt.Errorf]

    [Errorf] wraps the operands that the [%w] verbs of the format consume.
    Which operand a verb consumes is decided by the scan of the format in
    [doPrintf] (go1.20 and later), transcribed here: flags, explicit argument
    indexes [[n]], widths and precisions (digits or [*], which consumes an
    operand) and the verb. The scan state keeps what [Errorf] reads back:
    the operand counter, the operands met by [%w], and whether an index was
    used. *)
Module fmt.

Record pp := mkpp {
  argNum : nat;
  wrappedErrs : list nat;
  reordered : bool
}.

Definition byte_in (lo hi c : ascii) : bool :=
  N.leb (N_of_ascii lo) (N_of_ascii c) && N.leb (N_of_ascii c) (N_of_ascii hi).

Definition is_digit (c : ascii) : bool := byte_in "0" "9" c.
Definition is_lower (c : ascii) : bool := byte_in "a" "z" c.

Definition is_flag (c : ascii) : bool :=
  match c with
  | "#"%char | "0"%char | "+"%char | "-"%char | " "%char => true
  | _ => false
  end.

(** [s[n:]] *)
Fixpoint drop (n : nat) (s : string) : string :=
  match n, s with
  | S n', String _ s' => drop n' s'
  | _, _ => s
  end.

(** [tooLarge(x)]: [const max int = 1e6; return x > max || x < -max]. *)
Definition tooLarge (x : Z) : bool := (1000000 <? x)%Z || (x <? -1000000)%Z.

(** [parsenum(s, start, end)] on [s = format[start:]] with
    [avail = end - start]; the position returned is relative to [start],
    [k] counting the bytes read so far.
<<
    if start >= end { return 0, false, end }
    for newi = start; newi < end && '0' <= s[newi] && s[newi] <= '9'; newi++ {
        if tooLarge(num) { return 0, false, end }
        num = num*10 + int(s[newi]-'0')
        isnum = true
    }
>> *)
Fixpoint parsenum_from (s : string) (avail : nat) (num : Z) (isnum : bool) (k : nat)
  : Z * bool * nat :=
  match avail, s with
  | S avail', String c s' =>
      if is_digit c then
        if tooLarge num then (0%Z, false, k + avail)
        else parsenum_from s' avail'
               (num * 10 + (Z.of_N (N_of_ascii c) - Z.of_N (N_of_ascii "0")))%Z true (S k)
      else (num, isnum, k)
  | _, _ => (num, isnum, k)
  end.

Definition parsenum (s : string) (avail : nat) : Z * bool * nat :=
  parsenum_from s avail 0%Z false 0.

(** Index of the first ["]"] of [s], counted from [from]. *)
Fixpoint find_close (s : string) (from : nat) : option nat :=
  match s with
  | EmptyString => None
  | String c s' => if Ascii.eqb c "]" then Some from else find_close s' (S from)
  end.

(** [parseArgNumber(format)] for a [format] that starts with ["["]: the
    zero-based index, the bytes to skip, and whether the index parsed.
<<
    if len(format) < 3 { return 0, 1, false }
    for i := 1; i < len(format); i++ {
        if format[i] == ']' {
            width, ok, newi := parsenum(format, 1, i)
            if !ok || newi != i { return 0, i + 1, false }
            return width - 1, i + 1, true
        }
    }
    return 0, 1, false
>> *)
Definition parseArgNumber (format : string) : Z * nat * bool :=
  if Nat.ltb (String.length format) 3 then (0%Z, 1, false)
  else
    match find_close (drop 1 format) 1 with
    | Some i =>
        let '(width, ok, newi) := parsenum (drop 1 format) (i - 1) in
        if negb ok || negb (Nat.eqb (1 + newi) i) then (0%Z, i + 1, false)
        else ((width - 1)%Z, i + 1, true)
    | None => (0%Z, 1, false)
    end.

(** [p.argNumber(argNum, format, i, numArgs)] on [s = format[i:]]: the new
    operand counter, the bytes to skip, [found], and the new values of
    [p.goodArgNum] and [p.reordered].
<<
    if len(format) <= i || format[i] != '[' { return argNum, i, false }
    p.reordered = true
    index, wid, ok := parseArgNumber(format[i:])
    if ok && 0 <= index && index < numArgs { return index, i + wid, true }
    p.goodArgNum = false
    return argNum, i + wid, ok
>> *)
Definition argNumber (argNum : nat) (s : string) (numArgs : nat)
           (goodArgNum reordered : bool) : nat * nat * bool * bool * bool :=
  match s with
  | String "["%char _ =>
      let '(index, wid, ok) := parseArgNumber s in
      if ok && (0 <=? index)%Z && (index <? Z.of_nat numArgs)%Z
      then (Z.to_nat index, wid, true, goodArgNum, true)
      else (argNum, wid, ok, false, true)
  | _ => (argNum, 0, false, goodArgNum, reordered)
  end.

(** [intFromArg(a, argNum)]: only the operand counter is kept. *)
Definition intFromArg (numArgs argNum : nat) : nat :=
  if Nat.ltb argNum numArgs then argNum + 1 else argNum.

(** Number of leading flag bytes: the [simpleFormat] loop up to its
    [default] case. *)
Fixpoint skip_flags (s : string) : nat :=
  match s with
  | String c s' => if is_flag c then S (skip_flags s') else 0
  | EmptyString => 0
  end.

Definition head (s : string) : option ascii :=
  match s with
  | String c _ => Some c
  | EmptyString => None
  end.

(** The final [switch] of a directive on its verb.
<<
    switch {
    case verb == '%':
    case !p.goodArgNum:          p.badArgNum(verb)
    case argNum >= len(a):       p.missingArg(verb)
    case verb == 'w':
        p.wrappedErrs = append(p.wrappedErrs, argNum)
        fallthrough
    ...
    default:
        p.printArg(a[argNum], verb)
        argNum++
    }
>> *)
Definition verb_step (verb : ascii) (numArgs : nat) (goodArgNum : bool)
           (argNum : nat) (wrapped : list nat) : nat * list nat :=
  if Ascii.eqb verb "%" then (argNum, wrapped)
  else if negb goodArgNum then (argNum, wrapped)
  else if Nat.leb numArgs argNum then (argNum, wrapped)
  else if Ascii.eqb verb "w" then (argNum + 1, (wrapped ++ [argNum])%list)
  else (argNum + 1, wrapped).

(** One directive: [s] is the format after its ["%"]. Returns the number of
    bytes of [s] the directive takes and the state after it. A verb outside
    ASCII is counted as one byte: the bytes that complete it are never
    ["%"], and the scan passes over them as text with the same effect. *)
Definition directive (s : string) (numArgs : nat) (p : pp) : nat * pp :=
  let i0 := skip_flags s in
  let fast :=
    match head (drop i0 s) with
    | Some c => is_lower c && Nat.ltb (argNum p) numArgs
    | None => false
    end in
  if fast then
    match head (drop i0 s) with
    | Some c =>
        (i0 + 1,
         mkpp (argNum p + 1)
              (if Ascii.eqb c "w" then (wrappedErrs p ++ [argNum p])%list else wrappedErrs p)
              (reordered p))
    | None => (i0, p)
    end
  else
    (* Do we have an explicit argument index? *)
    let '(n1, w1, afterIndex1, good1, reord1) :=
      argNumber (argNum p) (drop i0 s) numArgs true (reordered p) in
    let i1 := i0 + w1 in
    (* Do we have width? *)
    let '(n2, i2, afterIndex2, good2) :=
      match head (drop i1 s) with
      | Some "*"%char => (intFromArg numArgs n1, i1 + 1, false, good1)
      | _ =>
          let '(_, widPresent, k) := parsenum (drop i1 s) (String.length (drop i1 s)) in
          (n1, i1 + k, afterIndex1,
           if afterIndex1 && widPresent then false else good1)
      end in
    (* Do we have precision? *)
    let '(n3, i3, afterIndex3, good3, reord3) :=
      match head (drop i2 s) with
      | Some "."%char =>
          let goodp := if afterIndex2 then false else good2 in
          let '(np, wp, afterIndexp, goodp', reordp) :=
            argNumber n2 (drop (i2 + 1) s) numArgs goodp reord1 in
          let ip := i2 + 1 + wp in
          match head (drop ip s) with
          | Some "*"%char => (intFromArg numArgs np, ip + 1, false, goodp', reordp)
          | _ =>
              let '(_, _, k) := parsenum (drop ip s) (String.length (drop ip s)) in
              (np, ip + k, afterIndexp, goodp', reordp)
          end
      | _ => (n2, i2, afterIndex2, good2, reord1)
      end in
    let '(n4, i4, good4, reord4) :=
      if afterIndex3 then (n3, i3, good3, reord3)
      else
        let '(n, w, _, g, r) := argNumber n3 (drop i3 s) numArgs good3 reord3 in
        (n, i3 + w, g, r) in
    match head (drop i4 s) with
    | None => (i4, mkpp n4 (wrappedErrs p) reord4)
    | Some verb =>
        let '(n5, wrapped) := verb_step verb numArgs good4 n4 (wrappedErrs p) in
        (i4 + 1, mkpp n5 wrapped reord4)
    end.

(** The [formatLoop] of [doPrintf]: [jump] counts the bytes of the current
    directive that are still to be passed over. *)
Fixpoint formatLoop (format : string) (jump : nat) (numArgs : nat) (p : pp) : pp :=
  match format with
  | EmptyString => p
  | String c rest =>
      match jump with
      | S j => formatLoop rest j numArgs p
      | 0 =>
          if Ascii.eqb c "%" then
            let '(k, p') := directive rest numArgs p in
            formatLoop rest k numArgs p'
          else formatLoop rest 0 numArgs p
      end
  end.

Definition doPrintf (format : string) (a : list value) : pp :=
  formatLoop format 0 (List.length a) (mkpp 0 [] false).

(** [slices.Sort] on operand indexes. *)
Fixpoint insert_sorted (n : nat) (l : list nat) : list nat :=
  match l with
  | [] => [n]
  | m :: l' => if Nat.leb n m then n :: l else m :: insert_sorted n l'
  end.

Definition sort (l : list nat) : list nat := fold_right insert_sorted [] l.

(** The loop of [Errorf] over [p.wrappedErrs]; [prev] is the index before
    the current one, if any.
<<
    for i, argNum := range p.wrappedErrs {
        if i > 0 && p.wrappedErrs[i-1] == argNum { continue }
        if e, ok := a[argNum].(error); ok { errs = append(errs, e) }
    }
>> *)
Fixpoint collect (a : list value) (prev : option nat) (wrapped : list nat) : list error :=
  match wrapped with
  | [] => []
  | n :: rest =>
      let dup := match prev with Some m => Nat.eqb m n | None => false end in
      if dup then collect a (Some n) rest
      else
        match asError (nth n a nilAny) with
        | Some e => e :: collect a (Some n) rest
        | None => collect a (Some n) rest
        end
  end.

(** [fmt.Errorf(format, a...)]
<<
    p.wrapErrs = true
    p.doPrintf(format, a)
    s := string(p.buf)
    switch len(p.wrappedErrs) {
    case 0:
        err = errors.New(s)
    case 1:
        w := &wrapError{msg: s}
        w.err, _ = a[p.wrappedErrs[0]].(error)
        err = w
    default:
        if p.reordered { slices.Sort(p.wrappedErrs) }
        var errs []error
        for i, argNum := range p.wrappedErrs { ... }
        err = &wrapErrors{s, errs}
    }
>> *)
Definition Errorf (format : string) (a : list value) : error :=
  let p := doPrintf format a in
  let s := formatted format a in
  match wrappedErrs p with
  | [] => errorString s
  | [n] => wrapError s (asError (nth n a nilAny))
  | wrapped =>
      wrapErrors s (collect a None (if reordered p then sort wrapped else wrapped))
  end.

(** What a plain directive prints for an operand, for the verbs this
    package relies on: [%T] prints the dynamic type, and [%w], [%v] and
    [%s] print [Error()] of a decision variable. *)
Definition render_verb (verb : ascii) (x : value) : option string :=
  if Ascii.eqb verb "T" then Some (typeString x)
  else if Ascii.eqb verb "w" || Ascii.eqb verb "v" || Ascii.eqb verb "s" then
    match x with
    | errAny (sentinelError d) => Some (sentinel_text d)
    | _ => None
    end
  else None.

(** The text printed for a format made of plain text, ["%%"] and the
    directives of [render_verb], each with its operand; [None] for any
    other format or operand. *)
Fixpoint render_format (format : string) (a : list value) : option string :=
  match format with
  | EmptyString => match a with [] => Some EmptyString | _ => None end
  | String c rest =>
      if Ascii.eqb c "%" then
        match rest with
        | String verb rest' =>
            if Ascii.eqb verb "%" then option_map (String "%") (render_format rest' a)
            else
              match a with
              | x :: a' =>
                  match render_verb verb x, render_format rest' a' with
                  | Some s, Some t => Some (s ++ t)
                  | _, _ => None
                  end
              | [] => None
              end
        | EmptyString => None
        end
      else option_map (String c) (render_format rest a)
  end.

Definition render (t : text error) : option string :=
  match t with
  | lit s => Some s
  | formatted format a => render_format format a
  end.

End fmt.

(** ** The privacy package *)

(** [Allowf], [Denyf] and [Skipf], generated from one template body for
    [$decision] in [Allow], [Deny], [Skip]:
<<
    func {{ $decision }}f(format string, a ...interface{}) error {
        return fmt.Errorf(format+": %w", append(a, {{ $decision }})...)
    }
>> *)
Definition decisionf (d : sentinel) (format : string) (a : list value) : error :=
  fmt.Errorf (format ++ ": %w") (a ++ [errAny (sentinelError d)])%list.

Definition Allowf := decisionf allow.
Definition Denyf := decisionf deny.
Definition Skipf := decisionf skip.

(** ** Go's [context] package, as far as values are concerned *)
Module context.

(** Keys: the key type [decisionCtxKey struct{}] of the privacy package,
    which no other package can name, and the keys of other packages. *)
Inductive key := decisionCtxKey | otherKey (k : nat).

Definition key_eqb (x y : key) : bool :=
  match x, y with
  | decisionCtxKey, decisionCtxKey => true
  | otherKey a, otherKey b => Nat.eqb a b
  | _, _ => false
  end.

(** [context.Background()], [context.WithValue(parent, key, val)], and the
    contexts derived for cancellation or deadlines, which hold no value of
    their own. *)
Inductive Context :=
| Background
| WithValue (parent : Context) (k : key) (val : value)
| WithCancel (parent : Context).

(** [ctx.Value(key)] *)
Fixpoint Value (ctx : Context) (k : key) : value :=
  match ctx with
  | Background => nilAny
  | WithValue parent k' val => if key_eqb k' k then val else Value parent k
  | WithCancel parent => Value parent k
  end.

End context.
Import context.

(** [decision == nil] *)
Definition is_nil (decision : option error) : bool :=
  match decision with
  | None => true
  | Some _ => false
  end.

(** [DecisionContext] creates a decision context.
<<
    func DecisionContext(parent context.Context, decision error) context.Context {
        if decision == nil || errors.Is(decision, Skip) {
            return parent
        }
        return context.WithValue(parent, decisionCtxKey{}, decision)
    }
>> *)
Definition DecisionContext (parent : Context) (decision : option error) : Context :=
  match decision with
  | None => parent
  | Some e =>
      if errors.Is decision skip then parent
      else WithValue parent decisionCtxKey (errAny e)
  end.

(**
<<
    func decisionFromContext(ctx context.Context) (error, bool) {
        decision, ok := ctx.Value(decisionCtxKey{}).(error)
        if ok && errors.Is(decision, Allow) {
            decision = nil
        }
        return decision, ok
    }
>> *)
Definition decisionFromContext (ctx : Context) : option error * bool :=
  match asError (Value ctx decisionCtxKey) with
  | Some e => (if errors.Is (Some e) allow then None else Some e, true)
  | None => (None, false)
  end.

(** A query is a value of the interface [ent.Query]. *)
Definition Query := value.

Section Rules.

(** Everything a rule can read or change besides its arguments. *)
Context {World : Type}.

(** The operation kinds [ent.Op] and the test [Op.Is] of the generated
    [ent] package, declared outside this template. *)
Context {Op : Type} (Op_Is : Op -> Op -> bool).

(** A computation that runs in a world and either returns a result and the
    world it leaves, or panics. *)
Definition M (A : Type) : Type := World -> option (A * World).

Definition ret {A} (x : A) : M A := fun w => Some (x, w).

Definition bind {A B} (c : M A) (k : A -> M B) : M B :=
  fun w =>
    match c w with
    | Some (x, w') => k x w'
    | None => None
    end.

Definition panic {A} : M A := fun _ => None.

Notation "x <- c ;; k" := (bind c (fun x => k))
  (at level 100, c at next level, right associativity).

(** A value of the interface [ent.Mutation]: nil, or a mutation with its
    dynamic type, the result of its [Op()] method and the object it
    points to. *)
Inductive Mutation :=
| nilMutation
| mutation (typ : goType) (op : Op) (ref : nat).

(** [m.Op()]: a method call on a nil interface panics. *)
Definition Mutation_Op (m : Mutation) : M Op :=
  match m with
  | nilMutation => panic
  | mutation _ op _ => ret op
  end.

(** [m] passed as an [interface{}] operand. *)
Definition Mutation_value (m : Mutation) : value :=
  match m with
  | nilMutation => nilAny
  | mutation typ _ ref => valAny typ ref
  end.

(** A value of the interface [QueryRule], given by its one method
    [EvalQuery(context.Context, ent.Query) error]; likewise
    [MutationRule] and [EvalMutation]. *)
Definition QueryRule : Type := Context -> Query -> M (option error).
Definition MutationRule : Type := Context -> Mutation -> M (option error).

(** [QueryPolicy] combines multiple query rules into a single policy. *)
Definition QueryPolicy : Type := list QueryRule.

(** [MutationPolicy] combines multiple mutation rules into a single policy. *)
Definition MutationPolicy : Type := list MutationRule.

(** [EvalQuery] evaluates a query against a query policy.
<<
    func (policy QueryPolicy) EvalQuery(ctx context.Context, q ent.Query) error {
        if decision, ok := decisionFromContext(ctx); ok {
            return decision
        }
        for _, rule := range policy {
            switch decision := rule.EvalQuery(ctx, q); {
            case decision == nil || errors.Is(decision, Skip):
            case errors.Is(decision, Allow):
                return nil
            default:
                return decision
            }
        }
        return nil
    }
>> *)
Definition QueryPolicy_EvalQuery (policy : QueryPolicy) : QueryRule :=
  fun ctx q =>
    let '(decision, ok) := decisionFromContext ctx in
    if ok then ret decision
    else
      (fix range (rules : list QueryRule) : M (option error) :=
         match rules with
         | [] => ret None
         | rule :: rest =>
             decision <- rule ctx q ;;
             if is_nil decision || errors.Is decision skip then range rest
             else if errors.Is decision allow then ret None
             else ret decision
         end) policy.

(** [QueryRuleFunc] is an adapter to allow the use of ordinary functions as
    query rules; its [EvalQuery] returns [f(ctx, q)]. *)
Definition QueryRuleFunc : Type := Context -> Query -> M (option error).

Definition QueryRuleFunc_EvalQuery (f : QueryRuleFunc) : QueryRule :=
  fun ctx q => f ctx q.

(** [EvalMutation] evaluates a mutation against a mutation policy.
<<
    func (policy MutationPolicy) EvalMutation(ctx context.Context, m ent.Mutation) error {
        if decision, ok := decisionFromContext(ctx); ok {
            return decision
        }
        for _, rule := range policy {
            switch decision := rule.EvalMutation(ctx, m); {
            case decision == nil || errors.Is(decision, Skip):
            case errors.Is(decision, Allow):
                return nil
            default:
                return decision
            }
        }
        return nil
    }
>> *)
Definition MutationPolicy_EvalMutation (policy : MutationPolicy) : MutationRule :=
  fun ctx m =>
    let '(decision, ok) := decisionFromContext ctx in
    if ok then ret decision
    else
      (fix range (rules : list MutationRule) : M (option error) :=
         match rules with
         | [] => ret None
         | rule :: rest =>
             decision <- rule ctx m ;;
             if is_nil decision || errors.Is decision skip then range rest
             else if errors.Is decision allow then ret None
             else ret decision
         end) policy.

(** [MutationRuleFunc] is an adapter to allow the use of ordinary functions
    as mutation rules; its [EvalMutation] returns [f(ctx, m)]. *)
Definition MutationRuleFunc : Type := Context -> Mutation -> M (option error).

Definition MutationRuleFunc_EvalMutation (f : MutationRuleFunc) : MutationRule :=
  fun ctx m => f ctx m.

(** [Policy] groups query and mutation policies; its methods forward to
    them. *)
Record Policy := {
  Policy_Query : QueryPolicy;
  Policy_Mutation : MutationPolicy
}.

Definition Policy_EvalQuery (policy : Policy) : QueryRule :=
  fun ctx q => QueryPolicy_EvalQuery (Policy_Query policy) ctx q.

Definition Policy_EvalMutation (policy : Policy) : MutationRule :=
  fun ctx m => MutationPolicy_EvalMutation (Policy_Mutation policy) ctx m.

(** [QueryMutationRule] groups query and mutation rules. *)
Record QueryMutationRule := {
  EvalQuery : QueryRule;
  EvalMutation : MutationRule
}.

(**
<<
    type fixedDecision struct { decision error }
    func (f fixedDecision) EvalQuery(context.Context, ent.Query) error { return f.decision }
    func (f fixedDecision) EvalMutation(context.Context, ent.Mutation) error { return f.decision }
>> *)
Definition fixedDecision (decision : option error) : QueryMutationRule :=
  {| EvalQuery := fun _ _ => ret decision;
     EvalMutation := fun _ _ => ret decision |}.

(** [AlwaysAllowRule] returns a rule that returns an allow decision. *)
Definition AlwaysAllowRule : QueryMutationRule := fixedDecision (Some Allow).

(** [AlwaysDenyRule] returns a rule that returns a deny decision. *)
Definition AlwaysDenyRule : QueryMutationRule := fixedDecision (Some Deny).

(** [OnMutationOperation] evaluates the given rule only on a given mutation
    operation.
<<
    func OnMutationOperation(rule MutationRule, op ent.Op) MutationRule {
        return MutationRuleFunc(func(ctx context.Context, m ent.Mutation) error {
            if m.Op().Is(op) {
                return rule.EvalMutation(ctx, m)
            }
            return Skip
        })
    }
>> *)
Definition OnMutationOperation (rule : MutationRule) (op : Op) : MutationRule :=
  MutationRuleFunc_EvalMutation (fun ctx m =>
    mop <- Mutation_Op m ;;
    if Op_Is mop op then rule ctx m
    else ret (Some Skip)).

(** [DenyMutationOperationRule] returns a rule denying specified mutation
    operation. The operand of [%s] is [m.Op()], of type [ent.Op].
<<
    func DenyMutationOperationRule(op ent.Op) MutationRule {
        rule := MutationRuleFunc(func(_ context.Context, m ent.Mutation) error {
            return Denyf("ent/privacy: operation %s is not allowed", m.Op())
        })
        return OnMutationOperation(rule, op)
    }
>> *)
Definition DenyMutationOperationRule (Op_value : Op -> value) (op : Op) : MutationRule :=
  OnMutationOperation
    (MutationRuleFunc_EvalMutation (fun _ m =>
       mop <- Mutation_Op m ;;
       ret (Some (Denyf "ent/privacy: operation %s is not allowed" [Op_value mop]))))
    op.

(** The adapters generated for each node [$n] of the schema, with
    [$type = "*pkg.NameQuery"]: [type] is that type of the package [pkg]
    the template imports, and [typeText type] the text [$type]; [f]
    receives the query as a [*pkg.NameQuery].
<<
    type NameQueryRuleFunc func(context.Context, *pkg.NameQuery) error

    func (f NameQueryRuleFunc) EvalQuery(ctx context.Context, q ent.Query) error {
        if q, ok := q.( *pkg.NameQuery ); ok {
            return f(ctx, q)
        }
        return Denyf("ent/privacy: unexpected query type %T, expect *pkg.NameQuery", q)
    }
>> *)
Definition NameQueryRuleFunc : Type := Context -> Query -> M (option error).

Definition NameQueryRuleFunc_EvalQuery (type : goType) (f : NameQueryRuleFunc) : QueryRule :=
  fun ctx q =>
    if typeAssert q type then f ctx q
    else ret (Some (Denyf ("ent/privacy: unexpected query type %T, expect " ++ typeText type)
                          [q])).

(** ... and with [$type = "*pkg.NameMutation"]:
<<
    type NameMutationRuleFunc func(context.Context, *pkg.NameMutation) error

    func (f NameMutationRuleFunc) EvalMutation(ctx context.Context, m ent.Mutation) error {
        if m, ok := m.( *pkg.NameMutation ); ok {
            return f(ctx, m)
        }
        return Denyf("ent/privacy: unexpected mutation type %T, expect *pkg.NameMutation", m)
    }
>> *)
Definition NameMutationRuleFunc : Type := Context -> Mutation -> M (option error).

Definition NameMutationRuleFunc_EvalMutation (type : goType) (f : NameMutationRuleFunc)
  : MutationRule :=
  fun ctx m =>
    if typeAssert (Mutation_value m) type then f ctx m
    else ret (Some (Denyf
                      ("ent/privacy: unexpected mutation type %T, expect " ++ typeText type)
                      [Mutation_value m])).

End Rules.

Arguments M World A : clear implicits.
Arguments QueryRule World : clear implicits.
Arguments MutationRule World Op : clear implicits.
Arguments QueryPolicy World : clear implicits.
Arguments MutationPolicy World Op : clear implicits.

(** ** Vocabulary of the properties *)

Section Chain.

Context {World X : Type}.

(** A rule over operations of type [X]: [X] is [Query] for query rules and
    [Mutation] for mutation rules. *)
Definition rule : Type := Context -> X -> M World (option error).

(** The first case of the switch in [EvalQuery] and [EvalMutation]. *)
Definition continues (decision : option error) : bool :=
  is_nil decision || errors.Is decision skip.

(** The rules run one after the other from world [w], each of them
    returning a decision that [keep] accepts: the world they leave. *)
Fixpoint run_while (keep : option error -> bool) (rules : list rule)
         (ctx : Context) (x : X) (w : World) : option World :=
  match rules with
  | [] => Some w
  | r :: rest =>
      match r ctx x w with
      | Some (decision, w') =>
          if keep decision then run_while keep rest ctx x w' else None
      | None => None
      end
  end.

(** ... each of them returning nil or a decision that matches [Skip]. *)
Definition skipped := run_while continues.

(** ... each of them returning a decision that matches [Skip]. *)
Definition all_skip := run_while (fun decision => errors.Is decision skip).

(** The loop shared by [EvalQuery] and [EvalMutation], and the function
    around it. *)
Definition range (ctx : Context) (x : X) : list rule -> M World (option error) :=
  fix range (rules : list rule) : M World (option error) :=
    match rules with
    | [] => ret None
    | r :: rest =>
        bind (r ctx x) (fun decision =>
          if is_nil decision || errors.Is decision skip then range rest
          else if errors.Is decision allow then ret None
          else ret decision)
    end.

Definition evalPolicy (policy : list rule) (ctx : Context) (x : X) : M World (option error) :=
  let '(decision, ok) := decisionFromContext ctx in
  if ok then ret decision else range ctx x policy.

(** Rule [r] made to record its number [i] each time it is invoked. *)
Definition recorded (i : nat) (r : rule) : Context -> X -> M (list nat * World) (option error) :=
  fun ctx x '(log, w) =>
    match r ctx x w with
    | Some (decision, w') => Some (decision, ((log ++ [i])%list, w'))
    | None => None
    end.

(** The rules of a policy, numbered from [i] in order, each recording its
    invocations. *)
Fixpoint recording (i : nat) (rules : list rule)
  : list (Context -> X -> M (list nat * World) (option error)) :=
  match rules with
  | [] => []
  | r :: rest => recorded i r :: recording (S i) rest
  end.

(** The record that an evaluation leaves. *)
Definition record_of (result : option (option error * (list nat * World))) : option (list nat) :=
  match result with
  | Some (_, (log, _)) => Some log
  | None => None
  end.

End Chain.

(** The rules that [EvalQuery] invokes, by position in the policy. *)
Definition queryCalls {World} (policy : QueryPolicy World) (ctx : Context) (q : Query)
           (w : World) : option (list nat) :=
  record_of (QueryPolicy_EvalQuery (recording 0 policy) ctx q ([], w)).

(** The rules that [EvalMutation] invokes, by position in the policy. *)
Definition mutationCalls {World Op} (policy : MutationPolicy World Op) (ctx : Context)
           (m : Mutation) (w : World) : option (list nat) :=
  record_of (MutationPolicy_EvalMutation (recording 0 policy) ctx m ([], w)).

(** The calls by which a program derives a context from another one. *)
Inductive derivation :=
| withValue (k : nat) (val : value)
| withCancel
| withDecision (decision : option error).

Definition derive (ctx : Context) (d : derivation) : Context :=
  match d with
  | withValue k val => WithValue ctx (otherKey k) val
  | withCancel => WithCancel ctx
  | withDecision decision => DecisionContext ctx decision
  end.

(** The context that a sequence of such calls builds from [Background]. *)
Definition built (calls : list derivation) : Context :=
  fold_left derive calls Background.

Definition is_letter (c : ascii) : bool :=
  fmt.byte_in "a" "z" c || fmt.byte_in "A" "Z" c.

(** Whether no byte of [s] is ["%"]. *)
Fixpoint percent_free (s : string) : bool :=
  match s with
  | EmptyString => true
  | String c rest => negb (Ascii.eqb c "%") && percent_free rest
  end.

(** For a format made of text, ["%%"] and plain verbs (["%"] and a letter):
    the number of its plain verbs. *)
Fixpoint plain_verbs (format : string) : option nat :=
  match format with
  | EmptyString => Some 0
  | String c rest =>
      if Ascii.eqb c "%" then
        match rest with
        | String verb rest' =>
            if Ascii.eqb verb "%" then plain_verbs rest'
            else if is_letter verb then option_map S (plain_verbs rest')
            else None
        | EmptyString => None
        end
      else plain_verbs rest
  end.

(** The decision that a context carries, if any, does not match Skip. *)
Definition holds_no_skip (ctx : Context) : Prop :=
  forall e, Value ctx decisionCtxKey = errAny e -> errors.Is (Some e) skip = false.

(** ** Sample values *)

(** Operation kinds as bit flags with their membership test, rules that
    count their invocations in the world, and operations of two node
    types. *)
Module Sample.

Definition Op : Type := N.
Definition OpCreate : Op := 1%N.
Definition OpUpdate : Op := 2%N.
Definition OpDelete : Op := 8%N.

Definition Op_Is (i o : Op) : bool := negb (N.eqb (N.land i o) 0).

Definition counting {X : Type} (decision : option error) : @rule nat X :=
  fun _ _ n => Some (decision, S n).

(** The types of the generated package, and the types of the same names
    that another generated package declares. *)
Definition entType (name : string) : goType :=
  {| pkgPath := "example.com/app/ent"; typeText := name |}.
Definition otherEntType (name : string) : goType :=
  {| pkgPath := "example.com/other/ent"; typeText := name |}.

Definition userQuery : Query := valAny (entType "*ent.UserQuery") 1.
Definition petQuery : Query := valAny (entType "*ent.PetQuery") 2.
Definition otherUserQuery : Query := valAny (otherEntType "*ent.UserQuery") 4.

Definition deleteUser : @Mutation Op := mutation (entType "*ent.UserMutation") OpDelete 3.
Definition deletePet : @Mutation Op := mutation (entType "*ent.PetMutation") OpDelete 5.

Definition noAccess : error := Denyf "no access" [].

(** A decision that matches both Skip and Allow. *)
Definition skipAndAllow : error := Skipf "%w" [errAny Allow].

(** A context that carries a decision under another context. *)
Definition denied : list derivation :=
  [withValue 7 (valAny (builtinType "string") 0); withDecision (Some Deny); withCancel;
   withDecision (Some Skip)].

End Sample.

(** ** Vocabulary of the further properties *)

(** [DecisionContext] stores [decision]: it is neither nil nor a match of
    Skip. *)
Definition definitive (decision : option error) : bool :=
  negb (is_nil decision || errors.Is decision skip).

(** A call that leaves the decision of a context as it is. *)
Definition keeps_decision (d : derivation) : bool :=
  match d with
  | withValue _ _ | withCancel => true
  | withDecision decision => negb (definitive decision)
  end.

(** ** The GroupTag entity (entc/integration/edgeschema/ent/grouptag.go) *)
Module GroupTagEntity.

(** A value handed to [sql.Rows.Scan] and back: a [*sql.NullInt64] with
    the fields of the struct it points to, the nil pointer of that type, a
    [*sql.UnknownType] with what it holds, or a value of any other type. *)
Inductive scanValue :=
| NullInt64 (Int64 : Z) (Valid : bool)
| nilNullInt64
| UnknownType (raw : value)
| otherValue (v : value).

(** The types [*sql.NullInt64], of the package [database/sql], and
    [*sql.UnknownType], of the package [dialect/sql]. *)
Definition sqlNullInt64 : goType :=
  {| pkgPath := "database/sql"; typeText := "*sql.NullInt64" |}.
Definition sqlUnknownType : goType :=
  {| pkgPath := "entgo.io/ent/dialect/sql"; typeText := "*sql.UnknownType" |}.

(** The value as an operand of [fmt]. *)
Definition operand (v : scanValue) : value :=
  match v with
  | NullInt64 _ _ | nilNullInt64 => valAny sqlNullInt64 0
  | UnknownType _ => valAny sqlUnknownType 0
  | otherValue x => x
  end.

(** How a call ends: it returns an error, nil maybe, or it panics (an
    index out of range, a nil pointer dereferenced). *)
Inductive outcome :=
| returned (err : option error)
| panicked.


(** An [int] as an operand of [fmt]. *)
Definition intOperand (n : nat) : value := valAny (builtinType "int") n.

Section Entity.

(** The column names [grouptag.FieldID], [grouptag.FieldTagID] and
    [grouptag.FieldGroupID], the type [sql.SelectValues] with its method
    [Set], and the conversion [int(x)] of an [int64], all declared outside
    this file. *)
Context (FieldID FieldTagID FieldGroupID : string).
Context {SelectValues : Type}.
Context (SelectValues_Set : string -> scanValue -> SelectValues -> SelectValues).
Context (int : Z -> Z).

(** The fields of [GroupTag] that scanning assigns. *)
Record GroupTag := {
  ID : Z;
  TagID : Z;
  GroupID : Z;
  selectValues : SelectValues
}.

(** [scanValues] returns the types for scanning values from [sql.Rows].
<<
    func ( *GroupTag ) scanValues(columns []string) ([]any, error) {
        values := make([]any, len(columns))
        for i := range columns {
            switch columns[i] {
            case grouptag.FieldID, grouptag.FieldTagID, grouptag.FieldGroupID:
                values[i] = new(sql.NullInt64)
            default:
                values[i] = new(sql.UnknownType)
            }
        }
        return values, nil
    }
>> *)
Definition scanValues (columns : list string) : list scanValue * option error :=
  (map (fun column =>
          if String.eqb column FieldID || String.eqb column FieldTagID
             || String.eqb column FieldGroupID
          then NullInt64 0 false
          else UnknownType nilAny)
       columns,
   None).

(** The loop of [assignValues] from index [i] on, [columns] and [values]
    being what is left of the two slices from [i]; the entity is updated in
    place, so the result holds the entity as the loop leaves it, also when
    it panics.
<<
    for i := range columns {
        switch columns[i] {
        case grouptag.FieldID:
            value, ok := values[i].( *sql.NullInt64 )
            if !ok {
                return fmt.Errorf("unexpected type %T for field id", value)
            }
            _m.ID = int(value.Int64)
        case grouptag.FieldTagID:
            if value, ok := values[i].( *sql.NullInt64 ); !ok {
                return fmt.Errorf("unexpected type %T for field tag_id", values[i])
            } else if value.Valid {
                _m.TagID = int(value.Int64)
            }
        case grouptag.FieldGroupID:
            if value, ok := values[i].( *sql.NullInt64 ); !ok {
                return fmt.Errorf("unexpected type %T for field group_id", values[i])
            } else if value.Valid {
                _m.GroupID = int(value.Int64)
            }
        default:
            _m.selectValues.Set(columns[i], values[i])
        }
    }
    return nil
>> *)
Fixpoint assignLoop (columns : list string) (values : list scanValue) (m : GroupTag)
  : GroupTag * outcome :=
  match columns with
  | [] => (m, returned None)
  | column :: columns' =>
      match values with
      | [] => (m, panicked)
      | v :: values' =>
          if String.eqb column FieldID then
            match v with
            | NullInt64 i _ =>
                assignLoop columns' values'
                  {| ID := int i; TagID := TagID m; GroupID := GroupID m;
                     selectValues := selectValues m |}
            | nilNullInt64 => (m, panicked)
            | _ =>
                (m, returned (Some (fmt.Errorf "unexpected type %T for field id"
                                      [valAny sqlNullInt64 0])))
            end
          else if String.eqb column FieldTagID then
            match v with
            | NullInt64 i valid =>
                assignLoop columns' values'
                  (if valid
                   then {| ID := ID m; TagID := int i; GroupID := GroupID m;
                           selectValues := selectValues m |}
                   else m)
            | nilNullInt64 => (m, panicked)
            | _ =>
                (m, returned (Some (fmt.Errorf "unexpected type %T for field tag_id"
                                      [operand v])))
            end
          else if String.eqb column FieldGroupID then
            match v with
            | NullInt64 i valid =>
                assignLoop columns' values'
                  (if valid
                   then {| ID := ID m; TagID := TagID m; GroupID := int i;
                           selectValues := selectValues m |}
                   else m)
            | nilNullInt64 => (m, panicked)
            | _ =>
                (m, returned (Some (fmt.Errorf "unexpected type %T for field group_id"
                                      [operand v])))
            end
          else
            assignLoop columns' values'
              {| ID := ID m; TagID := TagID m; GroupID := GroupID m;
                 selectValues := SelectValues_Set column v (selectValues m) |}
      end
  end.

(** [assignValues] assigns the values that were returned from [sql.Rows]
    (after scanning) to the [GroupTag] fields.
<<
    func (_m *GroupTag) assignValues(columns []string, values []any) error {
        if m, n := len(values), len(columns); m < n {
            return fmt.Errorf("mismatch number of scan values: %d != %d", m, n)
        }
        for i := range columns { ... }
        return nil
    }
>> *)
Definition assignValues (columns : list string) (values : list scanValue) (m : GroupTag)
  : GroupTag * outcome :=
  if Nat.ltb (List.length values) (List.length columns) then
    (m, returned
          (Some (fmt.Errorf "mismatch number of scan values: %d != %d"
                   [intOperand (List.length values); intOperand (List.length columns)])))
  else assignLoop columns values m.

End Entity.

End GroupTagEntity.

(** An operation kind of [Sample] as an operand of [fmt]. *)
Definition sampleOpOperand (op : Sample.Op) : value :=
  valAny {| pkgPath := "entgo.io/ent"; typeText := "ent.Op" |} (N.to_nat op).

(** Sample values for [GroupTag]: column names, selected values kept as a
    list with the latest in front, and [int] as wide as [int64]. *)
Module SampleGroupTag.

Import GroupTagEntity.

Definition Set_ (name : string) (v : scanValue) (s : list (string * scanValue))
  : list (string * scanValue) := (name, v) :: s.

Definition scan := scanValues "id" "tag_id" "group_id".

Definition assign := assignValues "id" "tag_id" "group_id" Set_ (fun x : Z => x).

Definition row : @GroupTag (list (string * scanValue)) :=
  {| ID := 1; TagID := 2; GroupID := 3; selectValues := [] |}.

End SampleGroupTag.

(** ** Properties of [errors.Is] and [fmt.Errorf] *)

Lemma sentinel_eqb_refl d : sentinel_eqb d d = true.
Proof. destruct d; reflexivity. Qed.

Lemma is_wrapErrors msg errs d :
  In (sentinelError d) errs -> errors.is_ (wrapErrors msg errs) d = true.
Proof.
  simpl. induction errs as [|e errs IH]; intros Hin.
  - destruct Hin.
  - destruct Hin as [-> | Hin].
    + simpl. now rewrite sentinel_eqb_refl.
    + rewrite (IH Hin). apply orb_true_r.
Qed.

Lemma insert_sorted_In n m l : In n (fmt.insert_sorted m l) <-> n = m \/ In n l.
Proof.
  induction l as [|x l IH]; simpl.
  - intuition.
  - destruct (Nat.leb m x); simpl; rewrite ?IH; intuition.
Qed.

Lemma sort_In n l : In n (fmt.sort l) <-> In n l.
Proof.
  unfold fmt.sort. induction l as [|x l IH]; simpl.
  - reflexivity.
  - rewrite insert_sorted_In, IH. intuition.
Qed.

(** An operand index met by [%w] is collected, unless it repeats the index
    just before it. *)
Lemma collect_In a e n : forall wrapped prev,
  In n wrapped -> asError (nth n a nilAny) = Some e ->
  In e (fmt.collect a prev wrapped) \/ prev = Some n.
Proof.
  induction wrapped as [|m rest IH]; intros prev Hin He.
  - destruct Hin.
  - cbn [fmt.collect]. destruct (Nat.eq_dec m n) as [-> | Hne].
    + destruct prev as [k|].
      * destruct (Nat.eqb_spec k n) as [-> | Hk].
        -- now right.
        -- rewrite He. left. now left.
      * rewrite He. left. now left.
    + destruct Hin as [Hmn | Hin]; [contradiction|].
      destruct (IH (Some m) Hin He) as [Hc | Hc]; [|congruence].
      left.
      destruct (match prev with Some k => Nat.eqb k m | None => false end); [exact Hc|].
      destruct (asError (nth m a nilAny)); [now right | exact Hc].
Qed.

(** [Errorf] wraps every error operand that one of its [%w] verbs meets. *)
Lemma Errorf_wraps format a n d :
  In n (fmt.wrappedErrs (fmt.doPrintf format a)) ->
  nth n a nilAny = errAny (sentinelError d) ->
  errors.is_ (fmt.Errorf format a) d = true.
Proof.
  intros Hin Hn. unfold fmt.Errorf.
  destruct (fmt.wrappedErrs (fmt.doPrintf format a)) as [|i [|j l]] eqn:Hw.
  - destruct Hin.
  - destruct Hin as [-> | []]. rewrite Hn. simpl. apply sentinel_eqb_refl.
  - apply is_wrapErrors.
    assert (He : asError (nth n a nilAny) = Some (sentinelError d)) by now rewrite Hn.
    destruct (fmt.reordered (fmt.doPrintf format a)).
    + destruct (collect_In a (sentinelError d) n (fmt.sort (i :: j :: l)) None) as [H | H];
        [now apply sort_In | exact He | exact H | discriminate].
    + destruct (collect_In a (sentinelError d) n (i :: j :: l) None Hin He) as [H | H];
        [exact H | discriminate].
Qed.

(** ** The scan of plain formats *)

Lemma formatLoop_text t : forall rest n p,
  percent_free t = true ->
  fmt.formatLoop (t ++ rest) 0 n p = fmt.formatLoop rest 0 n p.
Proof.
  induction t as [|c t IH]; intros rest n p H; simpl in *.
  - reflexivity.
  - apply andb_true_iff in H as [Hc Ht].
    apply negb_true_iff in Hc. rewrite Hc. now apply IH.
Qed.

Lemma directive_percent rest n p : fmt.directive (String "%" rest) n p = (1, p).
Proof. destruct p. reflexivity. Qed.

Lemma directive_letter verb rest n p :
  is_letter verb = true -> Nat.ltb (fmt.argNum p) n = true ->
  fmt.directive (String verb rest) n p =
  (1, fmt.mkpp (fmt.argNum p + 1)
               (if Ascii.eqb verb "w" then fmt.wrappedErrs p ++ [fmt.argNum p]
                else fmt.wrappedErrs p)%list
               (fmt.reordered p)).
Proof.
  intros Hv Hlt.
  destruct p as [k wrapped reord]. 
  destruct verb as [b0 b1 b2 b3 b4 b5 b6 b7].
  destruct b0, b1, b2, b3, b4, b5, b6, b7; try discriminate Hv; clear Hv.
  all: cbn [fmt.argNum] in Hlt.
  all: assert (Hle : Nat.leb n k = false)
         by (apply Nat.leb_gt; now apply Nat.ltb_lt).
  all: unfold fmt.directive; cbn -[Nat.ltb Nat.leb].
  all: now rewrite ?Hlt, ?Hle.
Qed.

Lemma formatLoop_verb verb rest n p :
  is_letter verb = true -> Nat.ltb (fmt.argNum p) n = true ->
  fmt.formatLoop (String "%" (String verb rest)) 0 n p =
  fmt.formatLoop rest 0 n
    (fmt.mkpp (fmt.argNum p + 1)
              (if Ascii.eqb verb "w" then fmt.wrappedErrs p ++ [fmt.argNum p]
               else fmt.wrappedErrs p)%list
              (fmt.reordered p)).
Proof.
  intros Hv Hlt. cbn [fmt.formatLoop]. rewrite Ascii.eqb_refl.
  now rewrite (directive_letter verb rest n p Hv Hlt).
Qed.

Lemma formatLoop_percent rest n p :
  fmt.formatLoop (String "%" (String "%" rest)) 0 n p = fmt.formatLoop rest 0 n p.
Proof.
  cbn [fmt.formatLoop]. rewrite Ascii.eqb_refl.
  now rewrite directive_percent.
Qed.

(** The scan of a plain format consumes one operand for each of its verbs,
    in order, and goes on with what follows the format. *)
Lemma formatLoop_plain suffix n : forall m format k p,
  String.length format <= m ->
  plain_verbs format = Some k -> fmt.argNum p + k <= n ->
  exists p',
    fmt.formatLoop (format ++ suffix) 0 n p = fmt.formatLoop suffix 0 n p' /\
    fmt.argNum p' = fmt.argNum p + k /\
    incl (fmt.wrappedErrs p) (fmt.wrappedErrs p').
Proof.
  induction m as [|m IH]; intros format k p Hlen Hk Hn.
  - destruct format; [|simpl in Hlen; lia].
    injection Hk as <-. exists p. rewrite Nat.add_0_r. repeat split. apply incl_refl.
  - destruct format as [|c rest].
    { injection Hk as <-. exists p. rewrite Nat.add_0_r. repeat split. apply incl_refl. }
    simpl in Hlen. cbn [plain_verbs] in Hk.
    destruct (Ascii.eqb_spec c "%") as [-> | Hc].
    + destruct rest as [|verb rest']; [discriminate|].
      simpl in Hlen.
      destruct (Ascii.eqb_spec verb "%") as [-> | Hverb].
      * destruct (IH rest' k p) as (p' & Hp' & Ha & Hw); [lia | exact Hk | exact Hn |].
        exists p'. split; [|now split].
        change (String "%" (String "%" rest') ++ suffix)
          with (String "%" (String "%" (rest' ++ suffix))).
        now rewrite formatLoop_percent.
      * destruct (is_letter verb) eqn:Hletter; [|discriminate].
        destruct (plain_verbs rest') as [k'|] eqn:Hrest; [|discriminate].
        injection Hk as <-.
        assert (Hlt : Nat.ltb (fmt.argNum p) n = true) by (apply Nat.ltb_lt; lia).
        set (p1 := fmt.mkpp (fmt.argNum p + 1)
                     (if Ascii.eqb verb "w" then fmt.wrappedErrs p ++ [fmt.argNum p]
                      else fmt.wrappedErrs p)%list
                     (fmt.reordered p)).
        destruct (IH rest' k' p1) as (p' & Hp' & Ha & Hw);
          [lia | exact Hrest | simpl; lia |].
        exists p'. split; [|split].
        -- change (String "%" (String verb rest') ++ suffix)
             with (String "%" (String verb (rest' ++ suffix))).
           rewrite (formatLoop_verb verb _ n p Hletter Hlt). exact Hp'.
        -- rewrite Ha. simpl. lia.
        -- intros i Hi. apply Hw. simpl.
           destruct (Ascii.eqb verb "w"); [apply in_or_app; now left | exact Hi].
    + destruct (IH rest k p) as (p' & Hp' & Ha & Hw); [lia | exact Hk | exact Hn |].
      exists p'. split; [|now split].
      cbn [append fmt.formatLoop].
      destruct (Ascii.eqb_spec c "%"); [contradiction | exact Hp'].
Qed.

(** In [Df(format, a...)] with a plain format that has one verb for each
    operand of [a], the [%w] that [Df] appends meets the decision that [Df]
    appends. *)
Lemma decisionf_scan d format a :
  plain_verbs format = Some (List.length a) ->
  In (List.length a)
     (fmt.wrappedErrs (fmt.doPrintf (format ++ ": %w") (a ++ [errAny (sentinelError d)]))).
Proof.
  intros Hk. unfold fmt.doPrintf. rewrite length_app. simpl List.length.
  destruct (formatLoop_plain ": %w" (List.length a + 1) (String.length format) format
              (List.length a) (fmt.mkpp 0 [] false)) as (p' & Hp' & Ha & _);
    [lia | exact Hk | simpl; lia |].
  rewrite Hp'. simpl in Ha.
  assert (Hlt : Nat.ltb (fmt.argNum p') (List.length a + 1) = true)
    by (apply Nat.ltb_lt; lia).
  change (fmt.formatLoop ": %w" 0 (List.length a + 1) p')
    with (fmt.formatLoop (String "%" (String "w" EmptyString)) 0 (List.length a + 1) p').
  rewrite (formatLoop_verb "w" EmptyString _ p' eq_refl Hlt).
  simpl. rewrite Ha. apply in_or_app. right. now left.
Qed.

Lemma nth_decision (a : list value) (x : value) : nth (List.length a) (a ++ [x]) nilAny = x.
Proof. rewrite app_nth2, Nat.sub_diag; [reflexivity | lia]. Qed.


(** ** The evaluation loop *)

Section ChainFacts.

Context {World X : Type}.
Implicit Types (r : @rule World X) (pre rest post policy : list (@rule World X)).
Implicit Types (ctx : Context) (x : X) (w : World).

Lemma range_cons r rest ctx x w :
  range ctx x (r :: rest) w =
  match r ctx x w with
  | Some (decision, w') =>
      if continues decision then range ctx x rest w'
      else if errors.Is decision allow then Some (None, w')
      else Some (decision, w')
  | None => None
  end.
Proof.
  cbn [range]. unfold bind, continues, ret.
  destruct (r ctx x w) as [[decision w']|]; [|reflexivity].
  destruct (is_nil decision || errors.Is decision skip); [reflexivity|].
  now destruct (errors.Is decision allow).
Qed.

Lemma evalPolicy_uncached policy ctx x :
  decisionFromContext ctx = (None, false) ->
  evalPolicy policy ctx x = range ctx x policy.
Proof. intros H. unfold evalPolicy. now rewrite H. Qed.

Lemma evalPolicy_cached policy ctx x w e :
  asError (Value ctx decisionCtxKey) = Some e ->
  evalPolicy policy ctx x w =
  Some ((if errors.Is (Some e) allow then None else Some e), w).
Proof.
  intros H. unfold evalPolicy, decisionFromContext. now rewrite H.
Qed.

(** Rules that all say "continue" are passed over. *)
Lemma range_run_while keep pre rest ctx x : forall w w1,
  (forall decision, keep decision = true -> continues decision = true) ->
  run_while keep pre ctx x w = Some w1 ->
  range ctx x (pre ++ rest) w = range ctx x rest w1.
Proof.
  induction pre as [|r pre IH]; intros w w1 Hkeep Hrun.
  - now injection Hrun as ->.
  - rewrite <- app_comm_cons, range_cons. cbn [run_while] in Hrun.
    destruct (r ctx x w) as [[decision w']|]; [|discriminate].
    destruct (keep decision) eqn:Hk; [|discriminate].
    rewrite (Hkeep _ Hk). now apply IH.
Qed.

Lemma range_exhausted keep policy ctx x w w1 :
  (forall decision, keep decision = true -> continues decision = true) ->
  run_while keep policy ctx x w = Some w1 ->
  range ctx x policy w = Some (None, w1).
Proof.
  intros Hkeep Hrun. rewrite <- (app_nil_r policy).
  now rewrite (range_run_while keep policy [] ctx x w w1 Hkeep Hrun).
Qed.

Lemma range_decisive r rest ctx x w d w' :
  r ctx x w = Some (Some d, w') ->
  errors.Is (Some d) skip = false ->
  range ctx x (r :: rest) w =
  Some ((if errors.Is (Some d) allow then None else Some d), w').
Proof.
  intros Hr Hs. rewrite range_cons, Hr. unfold continues. cbn [is_nil orb].
  rewrite Hs. now destruct (errors.Is (Some d) allow).
Qed.

Lemma all_skip_continues decision :
  errors.Is decision skip = true -> continues decision = true.
Proof. intros H. unfold continues. rewrite H. apply orb_true_r. Qed.

End ChainFacts.

Section RecordFacts.

Context {World X : Type}.
Implicit Types (r : @rule World X) (pre rest post policy : list (@rule World X)).
Implicit Types (ctx : Context) (x : X) (w : World).

(** ... and what the recording rules write down meanwhile. *)
Lemma recording_app pre post : forall i,
  recording i (pre ++ post) =
  (recording i pre ++ recording (i + length pre) post)%list.
Proof.
  induction pre as [|r pre IH]; intros i; simpl.
  - now rewrite Nat.add_0_r.
  - rewrite IH. do 3 f_equal. lia.
Qed.

Lemma run_while_recording keep pre ctx x : forall i log w w1,
  run_while keep pre ctx x w = Some w1 ->
  run_while keep (recording i pre) ctx x (log, w) =
  Some ((log ++ seq i (length pre))%list, w1).
Proof.
  induction pre as [|r pre IH]; intros i log w w1 Hrun; simpl in *.
  - injection Hrun as ->. now rewrite app_nil_r.
  - destruct (r ctx x w) as [[decision w']|]; [|discriminate].
    destruct (keep decision); [|discriminate].
    rewrite (IH (S i) _ _ _ Hrun), <- app_assoc. reflexivity.
Qed.

Lemma recorded_run i r ctx x log w decision w' :
  r ctx x w = Some (decision, w') ->
  recorded i r ctx x (log, w) = Some (decision, ((log ++ [i])%list, w')).
Proof. intros H. unfold recorded. now rewrite H. Qed.

(** The rule that decides ends the evaluation of the policy. *)
Lemma range_short_circuit pre r post ctx x w w1 w2 d :
  skipped pre ctx x w = Some w1 ->
  r ctx x w1 = Some (Some d, w2) ->
  errors.Is (Some d) skip = false ->
  range ctx x (pre ++ r :: post) w =
  Some ((if errors.Is (Some d) allow then None else Some d), w2) /\
  record_of (range ctx x (recording 0 (pre ++ r :: post)) ([], w)) =
  Some (seq 0 (S (length pre))).
Proof.
  intros Hpre Hr Hs. split.
  - rewrite (range_run_while continues pre _ ctx x w w1 (fun _ H => H) Hpre).
    now apply range_decisive.
  - rewrite recording_app. cbn [recording].
    rewrite (range_run_while continues _ _ ctx x _ _ (fun _ H => H)
               (run_while_recording continues pre ctx x 0 [] w w1 Hpre)).
    rewrite (range_decisive _ _ ctx x _ d _ (recorded_run _ r ctx x _ _ _ _ Hr) Hs).
    cbn [record_of app]. now rewrite seq_S.
Qed.

Lemma range_all_called keep policy ctx x w w1 :
  (forall decision, keep decision = true -> continues decision = true) ->
  run_while keep policy ctx x w = Some w1 ->
  record_of (range ctx x (recording 0 policy) ([], w)) = Some (seq 0 (length policy)).
Proof.
  intros Hkeep Hrun.
  now rewrite (range_exhausted keep _ ctx x _ _ Hkeep
                 (run_while_recording keep policy ctx x 0 [] w w1 Hrun)).
Qed.

End RecordFacts.

Lemma QueryPolicy_EvalQuery_evalPolicy {World} (policy : QueryPolicy World) ctx q :
  QueryPolicy_EvalQuery policy ctx q = evalPolicy policy ctx q.
Proof. reflexivity. Qed.

Lemma MutationPolicy_EvalMutation_evalPolicy {World Op} (policy : MutationPolicy World Op) ctx m :
  MutationPolicy_EvalMutation policy ctx m = evalPolicy policy ctx m.
Proof. reflexivity. Qed.

(** ** The claims about the evaluation of a policy *)

Local Open Scope list_scope.

(** C1. In a context without a cached decision, when the evaluation reaches
    a rule (all rules before it returned nil or a decision matching Skip)
    and this rule returns a decision that matches neither Skip nor Allow,
    [EvalQuery] and [EvalMutation] return that very decision and invoke no
    rule after it. For the policy [RuleA->Skip, RuleB->Deny("no access"),
    RuleC->Allow], [EvalQuery] returns the Deny of RuleB, and only RuleA and
    RuleB are invoked. *)
Theorem deny_short_circuits (World Op : Type) :
  (forall (pre post : QueryPolicy World) (r : QueryRule World) ctx q w w1 w2 d,
      decisionFromContext ctx = (None, false) ->
      skipped pre ctx q w = Some w1 ->
      r ctx q w1 = Some (Some d, w2) ->
      errors.Is (Some d) skip = false ->
      errors.Is (Some d) allow = false ->
      QueryPolicy_EvalQuery (pre ++ r :: post) ctx q w = Some (Some d, w2) /\
      queryCalls (pre ++ r :: post) ctx q w = Some (seq 0 (S (length pre)))) /\
  (forall (pre post : MutationPolicy World Op) (r : MutationRule World Op) ctx m w w1 w2 d,
      decisionFromContext ctx = (None, false) ->
      skipped pre ctx m w = Some w1 ->
      r ctx m w1 = Some (Some d, w2) ->
      errors.Is (Some d) skip = false ->
      errors.Is (Some d) allow = false ->
      MutationPolicy_EvalMutation (pre ++ r :: post) ctx m w = Some (Some d, w2) /\
      mutationCalls (pre ++ r :: post) ctx m w = Some (seq 0 (S (length pre)))) /\
  (forall (q : Query) (w : World),
      let ruleA := EvalQuery (@fixedDecision World Op (Some Skip)) in
      let ruleB := EvalQuery (@fixedDecision World Op (Some (Denyf "no access" []))) in
      let ruleC := EvalQuery (@fixedDecision World Op (Some Allow)) in
      QueryPolicy_EvalQuery [ruleA; ruleB; ruleC] Background q w =
        Some (Some (Denyf "no access" []), w) /\
      errors.Is (Some (Denyf "no access" [])) deny = true /\
      queryCalls [ruleA; ruleB; ruleC] Background q w = Some [0; 1]).
Proof.
  split; [|split].
  - intros pre post r ctx q w w1 w2 d Hctx Hpre Hr Hs Ha.
    unfold queryCalls. rewrite !QueryPolicy_EvalQuery_evalPolicy.
    rewrite !(evalPolicy_uncached _ ctx q Hctx).
    destruct (range_short_circuit pre r post ctx q w w1 w2 d Hpre Hr Hs) as [H1 H2].
    rewrite Ha in H1. now split.
  - intros pre post r ctx m w w1 w2 d Hctx Hpre Hr Hs Ha.
    unfold mutationCalls. rewrite !MutationPolicy_EvalMutation_evalPolicy.
    rewrite !(evalPolicy_uncached _ ctx m Hctx).
    destruct (range_short_circuit pre r post ctx m w w1 w2 d Hpre Hr Hs) as [H1 H2].
    rewrite Ha in H1. now split.
  - intros q w. repeat split.
Qed.

(** C2. In a context without a cached decision, [EvalQuery] and
    [EvalMutation] return nil for the policy without rules and for every
    policy all of whose rules return a decision matching Skip. *)
Theorem fail_open (World Op : Type) :
  (forall ctx q (w : World),
      decisionFromContext ctx = (None, false) ->
      QueryPolicy_EvalQuery [] ctx q w = Some (None, w)) /\
  (forall ctx (m : @Mutation Op) (w : World),
      decisionFromContext ctx = (None, false) ->
      MutationPolicy_EvalMutation [] ctx m w = Some (None, w)) /\
  (forall (policy : QueryPolicy World) ctx q w w',
      decisionFromContext ctx = (None, false) ->
      all_skip policy ctx q w = Some w' ->
      QueryPolicy_EvalQuery policy ctx q w = Some (None, w')) /\
  (forall (policy : MutationPolicy World Op) ctx m w w',
      decisionFromContext ctx = (None, false) ->
      all_skip policy ctx m w = Some w' ->
      MutationPolicy_EvalMutation policy ctx m w = Some (None, w')).
Proof.
  split; [|split; [|split]].
  - intros ctx q w Hctx. unfold QueryPolicy_EvalQuery. now rewrite Hctx.
  - intros ctx m w Hctx. unfold MutationPolicy_EvalMutation. now rewrite Hctx.
  - intros policy ctx q w w' Hctx Hall.
    rewrite QueryPolicy_EvalQuery_evalPolicy, (evalPolicy_uncached _ ctx q Hctx).
    exact (range_exhausted _ policy ctx q w w' all_skip_continues Hall).
  - intros policy ctx m w w' Hctx Hall.
    rewrite MutationPolicy_EvalMutation_evalPolicy, (evalPolicy_uncached _ ctx m Hctx).
    exact (range_exhausted _ policy ctx m w w' all_skip_continues Hall).
Qed.

(** C3, as the code has it. In a context without a cached decision, when
    the evaluation reaches a rule and this rule returns a decision that does
    not match Skip and matches Allow, [EvalQuery] and [EvalMutation] return
    nil and invoke no rule after it. *)
Theorem allow_short_circuits (World Op : Type) :
  (forall (pre post : QueryPolicy World) (r : QueryRule World) ctx q w w1 w2 d,
      decisionFromContext ctx = (None, false) ->
      skipped pre ctx q w = Some w1 ->
      r ctx q w1 = Some (Some d, w2) ->
      errors.Is (Some d) skip = false ->
      errors.Is (Some d) allow = true ->
      QueryPolicy_EvalQuery (pre ++ r :: post) ctx q w = Some (None, w2) /\
      queryCalls (pre ++ r :: post) ctx q w = Some (seq 0 (S (length pre)))) /\
  (forall (pre post : MutationPolicy World Op) (r : MutationRule World Op) ctx m w w1 w2 d,
      decisionFromContext ctx = (None, false) ->
      skipped pre ctx m w = Some w1 ->
      r ctx m w1 = Some (Some d, w2) ->
      errors.Is (Some d) skip = false ->
      errors.Is (Some d) allow = true ->
      MutationPolicy_EvalMutation (pre ++ r :: post) ctx m w = Some (None, w2) /\
      mutationCalls (pre ++ r :: post) ctx m w = Some (seq 0 (S (length pre)))).
Proof.
  split.
  - intros pre post r ctx q w w1 w2 d Hctx Hpre Hr Hs Ha.
    unfold queryCalls. rewrite !QueryPolicy_EvalQuery_evalPolicy.
    rewrite !(evalPolicy_uncached _ ctx q Hctx).
    destruct (range_short_circuit pre r post ctx q w w1 w2 d Hpre Hr Hs) as [H1 H2].
    rewrite Ha in H1. now split.
  - intros pre post r ctx m w w1 w2 d Hctx Hpre Hr Hs Ha.
    unfold mutationCalls. rewrite !MutationPolicy_EvalMutation_evalPolicy.
    rewrite !(evalPolicy_uncached _ ctx m Hctx).
    destruct (range_short_circuit pre r post ctx m w w1 w2 d Hpre Hr Hs) as [H1 H2].
    rewrite Ha in H1. now split.
Qed.

(** C4. When the context carries a cached decision, [EvalQuery] and
    [EvalMutation] return it and invoke no rule of the policy, whatever the
    policy: nil for a cached decision that matches Allow, the stored error
    itself for any other one, such as Deny. *)
Theorem cached_decision_returned (World Op : Type) :
  (forall (policy : QueryPolicy World) ctx q w e,
      Value ctx decisionCtxKey = errAny e ->
      QueryPolicy_EvalQuery policy ctx q w =
        Some ((if errors.Is (Some e) allow then None else Some e), w) /\
      queryCalls policy ctx q w = Some []) /\
  (forall (policy : MutationPolicy World Op) ctx m w e,
      Value ctx decisionCtxKey = errAny e ->
      MutationPolicy_EvalMutation policy ctx m w =
        Some ((if errors.Is (Some e) allow then None else Some e), w) /\
      mutationCalls policy ctx m w = Some []) /\
  (forall (policy : QueryPolicy World) parent q w,
      QueryPolicy_EvalQuery policy (DecisionContext parent (Some Allow)) q w =
        Some (None, w) /\
      QueryPolicy_EvalQuery policy (DecisionContext parent (Some Deny)) q w =
        Some (Some Deny, w)).
Proof.
  split; [|split].
  - intros policy ctx q w e He.
    assert (H : asError (Value ctx decisionCtxKey) = Some e) by now rewrite He.
    unfold queryCalls. rewrite !QueryPolicy_EvalQuery_evalPolicy.
    rewrite !(evalPolicy_cached _ ctx q _ e H). now split.
  - intros policy ctx m w e He.
    assert (H : asError (Value ctx decisionCtxKey) = Some e) by now rewrite He.
    unfold mutationCalls. rewrite !MutationPolicy_EvalMutation_evalPolicy.
    rewrite !(evalPolicy_cached _ ctx m _ e H). now split.
  - intros policy parent q w. split; reflexivity.
Qed.

(** C10. A rule that returns nil and a rule that returns a decision matching
    Skip are treated alike: in a context without a cached decision the
    evaluation goes on with the rest of the policy. A policy all of whose
    rules return nil or a decision matching Skip has every rule invoked, in
    order, and evaluates to nil. *)
Theorem nil_is_skip (World Op : Type) :
  (forall (r : QueryRule World) (rest : QueryPolicy World) ctx q w w1 decision,
      decisionFromContext ctx = (None, false) ->
      r ctx q w = Some (decision, w1) ->
      decision = None \/ errors.Is decision skip = true ->
      QueryPolicy_EvalQuery (r :: rest) ctx q w = QueryPolicy_EvalQuery rest ctx q w1) /\
  (forall (r : MutationRule World Op) (rest : MutationPolicy World Op) ctx m w w1 decision,
      decisionFromContext ctx = (None, false) ->
      r ctx m w = Some (decision, w1) ->
      decision = None \/ errors.Is decision skip = true ->
      MutationPolicy_EvalMutation (r :: rest) ctx m w =
      MutationPolicy_EvalMutation rest ctx m w1) /\
  (forall (policy : QueryPolicy World) ctx q w w',
      decisionFromContext ctx = (None, false) ->
      skipped policy ctx q w = Some w' ->
      QueryPolicy_EvalQuery policy ctx q w = Some (None, w') /\
      queryCalls policy ctx q w = Some (seq 0 (length policy))) /\
  (forall (policy : MutationPolicy World Op) ctx m w w',
      decisionFromContext ctx = (None, false) ->
      skipped policy ctx m w = Some w' ->
      MutationPolicy_EvalMutation policy ctx m w = Some (None, w') /\
      mutationCalls policy ctx m w = Some (seq 0 (length policy))).
Proof.
  assert (Hcont : forall decision : option error,
             decision = None \/ errors.Is decision skip = true ->
             continues decision = true).
  { intros decision [-> | H]; [reflexivity | now apply all_skip_continues]. }
  split; [|split; [|split]].
  - intros r rest ctx q w w1 decision Hctx Hr Hd.
    rewrite !QueryPolicy_EvalQuery_evalPolicy, !(evalPolicy_uncached _ ctx q Hctx).
    pose proof (range_cons r rest ctx q w) as E.
    rewrite Hr, (Hcont _ Hd) in E. exact E.
  - intros r rest ctx m w w1 decision Hctx Hr Hd.
    rewrite !MutationPolicy_EvalMutation_evalPolicy, !(evalPolicy_uncached _ ctx m Hctx).
    pose proof (range_cons r rest ctx m w) as E.
    rewrite Hr, (Hcont _ Hd) in E. exact E.
  - intros policy ctx q w w' Hctx Hrun. unfold queryCalls.
    rewrite !QueryPolicy_EvalQuery_evalPolicy, !(evalPolicy_uncached _ ctx q Hctx).
    split.
    + exact (range_exhausted continues policy ctx q w w' (fun _ K => K) Hrun).
    + exact (range_all_called continues policy ctx q w w' (fun _ K => K) Hrun).
  - intros policy ctx m w w' Hctx Hrun. unfold mutationCalls.
    rewrite !MutationPolicy_EvalMutation_evalPolicy, !(evalPolicy_uncached _ ctx m Hctx).
    split.
    + exact (range_exhausted continues policy ctx m w w' (fun _ K => K) Hrun).
    + exact (range_all_called continues policy ctx m w w' (fun _ K => K) Hrun).
Qed.

(** ** The claims about the decision context *)

Lemma range_not_skip {World X} (ctx : Context) (x : X) (policy : list (@rule World X)) :
  forall w decision w',
    range ctx x policy w = Some (decision, w') -> errors.Is decision skip = false.
Proof.
  induction policy as [|r rest IH]; intros w decision w' H.
  - injection H as <- _. reflexivity.
  - rewrite range_cons in H.
    destruct (r ctx x w) as [[d w1]|]; [|discriminate].
    destruct (continues d) eqn:Hc; [now apply (IH w1 decision w')|].
    destruct (errors.Is d allow).
    + injection H as <- _. reflexivity.
    + injection H as <- _. unfold continues in Hc.
      now apply orb_false_iff in Hc.
Qed.

Lemma derive_holds_no_skip ctx d : holds_no_skip ctx -> holds_no_skip (derive ctx d).
Proof.
  intros Hctx. destruct d as [k val | | [e|]]; try exact Hctx.
  cbn [derive DecisionContext].
  destruct (errors.Is (Some e) skip) eqn:Hs; [exact Hctx|].
  intros e' He'. cbn in He'. now injection He' as <-.
Qed.

Lemma built_holds_no_skip calls : holds_no_skip (built calls).
Proof.
  unfold built.
  assert (H : holds_no_skip Background) by (intros e He; discriminate).
  revert H. generalize Background.
  induction calls as [|d calls IH]; intros ctx Hctx; simpl.
  - exact Hctx.
  - apply IH. now apply derive_holds_no_skip.
Qed.

Lemma evalPolicy_not_skip {World X} (policy : list (@rule World X)) calls x w decision w' :
  evalPolicy policy (built calls) x w = Some (decision, w') ->
  errors.Is decision skip = false.
Proof.
  unfold evalPolicy, decisionFromContext.
  destruct (Value (built calls) decisionCtxKey) as [|e|] eqn:Hv; simpl.
  - apply range_not_skip.
  - intros H. unfold ret in H. injection H as <- _.
    destruct (errors.is_ e allow); [reflexivity|].
    exact (built_holds_no_skip calls e Hv).
  - apply range_not_skip.
Qed.

(** C8. Whatever the policy, the operation and the context (any context
    built from [Background] by [WithValue] under other keys, by cancellation
    and by [DecisionContext]), the decision that [EvalQuery] or
    [EvalMutation] returns does not match Skip; and in a context without a
    cached decision a policy whose rules all return nil or a decision
    matching Skip evaluates to nil. *)
Theorem never_returns_skip (World Op : Type) :
  (forall (policy : QueryPolicy World) calls q w decision w',
      QueryPolicy_EvalQuery policy (built calls) q w = Some (decision, w') ->
      errors.Is decision skip = false) /\
  (forall (policy : MutationPolicy World Op) calls m w decision w',
      MutationPolicy_EvalMutation policy (built calls) m w = Some (decision, w') ->
      errors.Is decision skip = false) /\
  (forall (policy : QueryPolicy World) ctx q w w',
      decisionFromContext ctx = (None, false) ->
      skipped policy ctx q w = Some w' ->
      QueryPolicy_EvalQuery policy ctx q w = Some (None, w')) /\
  (forall (policy : MutationPolicy World Op) ctx m w w',
      decisionFromContext ctx = (None, false) ->
      skipped policy ctx m w = Some w' ->
      MutationPolicy_EvalMutation policy ctx m w = Some (None, w')).
Proof.
  split; [|split; [|split]].
  - intros policy calls q w decision w'.
    rewrite QueryPolicy_EvalQuery_evalPolicy. apply evalPolicy_not_skip.
  - intros policy calls m w decision w'.
    rewrite MutationPolicy_EvalMutation_evalPolicy. apply evalPolicy_not_skip.
  - intros policy ctx q w w' Hctx Hrun.
    rewrite QueryPolicy_EvalQuery_evalPolicy, (evalPolicy_uncached _ ctx q Hctx).
    exact (range_exhausted continues policy ctx q w w' (fun _ K => K) Hrun).
  - intros policy ctx m w w' Hctx Hrun.
    rewrite MutationPolicy_EvalMutation_evalPolicy, (evalPolicy_uncached _ ctx m Hctx).
    exact (range_exhausted continues policy ctx m w w' (fun _ K => K) Hrun).
Qed.

(** C9. [DecisionContext(parent, d)] is [parent] itself when [d] is nil or
    matches Skip; otherwise it is [parent] extended with [d] under the
    decision key, and [decisionFromContext] then reports a decision: nil
    when [d] matches Allow, and [d] itself otherwise, as for Deny. *)
Theorem decision_context_stores_definitive :
  (forall parent, DecisionContext parent None = parent) /\
  (forall parent d,
      errors.Is (Some d) skip = true -> DecisionContext parent (Some d) = parent) /\
  (forall parent d,
      errors.Is (Some d) skip = false ->
      DecisionContext parent (Some d) = WithValue parent decisionCtxKey (errAny d) /\
      decisionFromContext (DecisionContext parent (Some d)) =
        ((if errors.Is (Some d) allow then None else Some d), true)) /\
  (forall parent,
      decisionFromContext (DecisionContext parent (Some Allow)) = (None, true) /\
      decisionFromContext (DecisionContext parent (Some Deny)) = (Some Deny, true)).
Proof.
  split; [|split; [|split]].
  - reflexivity.
  - intros parent d Hs. unfold DecisionContext. now rewrite Hs.
  - intros parent d Hs. unfold DecisionContext. rewrite Hs. split; reflexivity.
  - intros parent. split; reflexivity.
Qed.

(** ** The claims about the rule adapters *)

(** C6. On a mutation whose operation kind does not match [op], the rule
    [OnMutationOperation(rule, op)] returns Skip and does not invoke [rule]
    (a recording [rule] records nothing); on a mutation whose kind matches
    [op] it does what [rule] does and returns what [rule] returns. *)
Theorem on_mutation_operation_filters (World Op : Type) (Op_Is : Op -> Op -> bool) :
  forall (r : MutationRule World Op) (op : Op) ctx typ mop ref w,
    (Op_Is mop op = false ->
       OnMutationOperation Op_Is r op ctx (mutation typ mop ref) w = Some (Some Skip, w) /\
       forall log,
         OnMutationOperation Op_Is (recorded 0 r) op ctx (mutation typ mop ref) (log, w) =
         Some (Some Skip, (log, w))) /\
    (Op_Is mop op = true ->
       OnMutationOperation Op_Is r op ctx (mutation typ mop ref) w =
       r ctx (mutation typ mop ref) w).
Proof.
  intros r op ctx typ mop ref w.
  unfold OnMutationOperation, MutationRuleFunc_EvalMutation, bind, Mutation_Op, ret.
  split; intros H; rewrite H; [split|]; reflexivity.
Qed.

Lemma goType_eqb_eq s t : goType_eqb s t = true <-> s = t.
Proof.
  destruct s as [p1 n1], t as [p2 n2]. unfold goType_eqb. cbn [pkgPath typeText].
  rewrite andb_true_iff, !String.eqb_eq. split.
  - now intros [-> ->].
  - intros H. now injection H as -> ->.
Qed.

(** The type assertion succeeds on the values of that very type. *)
Lemma typeAssert_spec (x : value) (T : goType) :
  typeAssert x T = true <-> typeOf x = Some T.
Proof.
  unfold typeAssert. destruct (typeOf x) as [t|].
  - rewrite goType_eqb_eq. split; [now intros -> | now intros [= ->]].
  - split; discriminate.
Qed.

Lemma plain_verbs_text t : percent_free t = true -> plain_verbs t = Some 0.
Proof.
  induction t as [|c t IH]; intros H; simpl in *.
  - reflexivity.
  - apply andb_true_iff in H as [Hc Ht].
    apply negb_true_iff in Hc. rewrite Hc. now apply IH.
Qed.

Lemma render_format_text t rest a :
  percent_free t = true ->
  fmt.render_format (t ++ rest)%string a =
  option_map (append t) (fmt.render_format rest a).
Proof.
  induction t as [|c t IH]; intros H; simpl in *.
  - now destruct (fmt.render_format rest a).
  - apply andb_true_iff in H as [Hc Ht].
    apply negb_true_iff in Hc. rewrite Hc, (IH Ht).
    now destruct (fmt.render_format rest a).
Qed.

Lemma append_assoc (s t u : string) : ((s ++ t) ++ u = s ++ (t ++ u))%string.
Proof. induction s as [|c s IH]; simpl; [reflexivity | now rewrite IH]. Qed.

Lemma plain_verbs_app t rest :
  percent_free t = true -> plain_verbs (t ++ rest)%string = plain_verbs rest.
Proof.
  induction t as [|c t IH]; intros H; simpl in *.
  - reflexivity.
  - apply andb_true_iff in H as [Hc Ht].
    apply negb_true_iff in Hc. rewrite Hc. now apply IH.
Qed.

Lemma Error_Errorf format a : Error (fmt.Errorf format a) = formatted format a.
Proof.
  unfold fmt.Errorf.
  now destruct (fmt.wrappedErrs (fmt.doPrintf format a)) as [|i [|j l]].
Qed.

(** The error of the per-node adapters on an operand of another type: it
    wraps Deny, and its text names the type met and the type expected. *)
Lemma unexpected_type_error (kind type : string) (x : value) :
  percent_free kind = true -> percent_free type = true ->
  let format := ("ent/privacy: unexpected " ++ kind ++ " type %T, expect " ++ type)%string in
  Denyf format [x] = wrapError (formatted (format ++ ": %w")%string [x; errAny Deny]) (Some Deny) /\
  fmt.render (Error (Denyf format [x])) =
  Some ("ent/privacy: unexpected " ++ kind ++ " type " ++ typeString x
          ++ ", expect " ++ type ++ ": ent/privacy: deny rule")%string.
Proof.
  intros Hkind Htype format.
  assert (Hformat : (format ++ ": %w" =
            "ent/privacy: unexpected " ++ kind ++ " type " ++
            String "%" (String "T" (", expect " ++ type ++ ": %w")))%string).
  { unfold format. rewrite !append_assoc. reflexivity. }
  split.
  - unfold Denyf, decisionf, fmt.Errorf, fmt.doPrintf.
    rewrite Hformat. cbn [app List.length].
    rewrite (formatLoop_text "ent/privacy: unexpected ") by reflexivity.
    rewrite (formatLoop_text kind) by exact Hkind.
    rewrite (formatLoop_text " type ") by reflexivity.
    rewrite formatLoop_verb by reflexivity.
    rewrite (formatLoop_text ", expect ") by reflexivity.
    rewrite (formatLoop_text type) by exact Htype.
    reflexivity.
  - unfold Denyf, decisionf. rewrite Error_Errorf. cbn [fmt.render app]. rewrite Hformat.
    rewrite (render_format_text "ent/privacy: unexpected ") by reflexivity.
    rewrite (render_format_text kind) by exact Hkind.
    rewrite (render_format_text " type ") by reflexivity.
    cbn [fmt.render_format]. rewrite Ascii.eqb_refl.
    change (Ascii.eqb "T" "%") with false. cbn iota.
    change (fmt.render_verb "T" x) with (Some (typeString x)).
    rewrite (render_format_text ", expect ") by reflexivity.
    rewrite (render_format_text type) by exact Htype.
    reflexivity.
Qed.

(** C5. The adapter generated for a node type: its type assertion
    succeeds exactly on the operations whose dynamic type is the node's
    type, the same type and not only a type that prints alike; on such an
    operation it does what [f] does and returns what
    [f] returns; on any other operation, nil included, it does not invoke
    [f] (a recording [f] records nothing) and returns an error that wraps
    Deny and whose text names the type met and the type expected. *)
Theorem node_rule_adapters (World Op : Type) (type : goType) :
  percent_free (typeText type) = true ->
  (forall x : value, typeAssert x type = true <-> typeOf x = Some type) /\
  (forall (f : @NameQueryRuleFunc World) ctx (q : Query) w,
      (typeAssert q type = true ->
         NameQueryRuleFunc_EvalQuery type f ctx q w = f ctx q w) /\
      (typeAssert q type = false ->
         let e := Denyf ("ent/privacy: unexpected query type %T, expect " ++ typeText type)%string [q] in
         NameQueryRuleFunc_EvalQuery type f ctx q w = Some (Some e, w) /\
         (forall log,
             NameQueryRuleFunc_EvalQuery type (recorded 0 f) ctx q (log, w) =
             Some (Some e, (log, w))) /\
         (exists msg, e = wrapError msg (Some Deny)) /\
         errors.Is (Some e) deny = true /\
         fmt.render (Error e) =
           Some ("ent/privacy: unexpected query type " ++ typeString q
                   ++ ", expect " ++ typeText type ++ ": ent/privacy: deny rule")%string)) /\
  (forall (f : @NameMutationRuleFunc World Op) ctx (m : Mutation) w,
      (typeAssert (Mutation_value m) type = true ->
         NameMutationRuleFunc_EvalMutation type f ctx m w = f ctx m w) /\
      (typeAssert (Mutation_value m) type = false ->
         let e := Denyf ("ent/privacy: unexpected mutation type %T, expect " ++ typeText type)%string
                        [Mutation_value m] in
         NameMutationRuleFunc_EvalMutation type f ctx m w = Some (Some e, w) /\
         (forall log,
             NameMutationRuleFunc_EvalMutation type (recorded 0 f) ctx m (log, w) =
             Some (Some e, (log, w))) /\
         (exists msg, e = wrapError msg (Some Deny)) /\
         errors.Is (Some e) deny = true /\
         fmt.render (Error e) =
           Some ("ent/privacy: unexpected mutation type " ++ typeString (Mutation_value m)
                   ++ ", expect " ++ typeText type ++ ": ent/privacy: deny rule")%string)).
Proof.
  intros Htype. split; [intros x; apply typeAssert_spec|]. split.
  - intros f ctx q w. split; intros Hq.
    + unfold NameQueryRuleFunc_EvalQuery. now rewrite Hq.
    + intros e.
      destruct (unexpected_type_error "query" (typeText type) q eq_refl Htype) as [He Hmsg].
      change (Denyf ("ent/privacy: unexpected " ++ "query" ++ " type %T, expect " ++ typeText type) [q])
        with e in He, Hmsg.
      unfold NameQueryRuleFunc_EvalQuery. rewrite Hq.
      split; [reflexivity|]. split; [reflexivity|].
      split; [eexists; exact He|]. split; [now rewrite He | exact Hmsg].
  - intros f ctx m w. split; intros Hm.
    + unfold NameMutationRuleFunc_EvalMutation. now rewrite Hm.
    + intros e.
      destruct (unexpected_type_error "mutation" (typeText type) (Mutation_value m) eq_refl Htype)
        as [He Hmsg].
      change (Denyf ("ent/privacy: unexpected " ++ "mutation" ++ " type %T, expect " ++ typeText type)
                    [Mutation_value m])
        with e in He, Hmsg.
      unfold NameMutationRuleFunc_EvalMutation. rewrite Hm.
      split; [reflexivity|]. split; [reflexivity|].
      split; [eexists; exact He|]. split; [now rewrite He | exact Hmsg].
Qed.

(** ** The claim about formatted decisions *)

(** C7, as the code has it. [Allowf], [Denyf] and [Skipf] return an error
    that [errors.Is] matches with Allow, Deny and Skip respectively whenever
    a [%w] verb of the format, the one they append included, receives the
    decision they append to the arguments; so it is for every format made of
    text, ["%%"] and plain verbs (["%"] and a letter) with as many arguments
    as the format has verbs. *)
Theorem formatted_decision_matches :
  forall (format : string) (a : list value),
    (forall d,
        In (length a)
           (fmt.wrappedErrs
              (fmt.doPrintf (format ++ ": %w")%string (a ++ [errAny (sentinelError d)]))) ->
        errors.Is (Some (decisionf d format a)) d = true) /\
    (plain_verbs format = Some (length a) ->
     errors.Is (Some (Allowf format a)) allow = true /\
     errors.Is (Some (Denyf format a)) deny = true /\
     errors.Is (Some (Skipf format a)) skip = true).
Proof.
  intros format a.
  assert (H : forall d,
             In (length a)
                (fmt.wrappedErrs
                   (fmt.doPrintf (format ++ ": %w")%string
                      (a ++ [errAny (sentinelError d)]))) ->
             errors.Is (Some (decisionf d format a)) d = true).
  { intros d Hin. apply Errorf_wraps with (n := length a); [exact Hin|].
    apply nth_decision. }
  split; [exact H|].
  intros Hplain. repeat split; apply H; now apply decisionf_scan.
Qed.

(** ** Instances *)

Lemma deny_short_circuits_witness :
  (decisionFromContext Background = (None, false) /\
   skipped [Sample.counting (Some Skip)] Background Sample.userQuery 0 = Some 1 /\
   Sample.counting (Some Sample.noAccess) Background Sample.userQuery 1 =
     Some (Some Sample.noAccess, 2) /\
   errors.Is (Some Sample.noAccess) skip = false /\
   errors.Is (Some Sample.noAccess) allow = false) /\
  QueryPolicy_EvalQuery
    [Sample.counting (Some Skip); Sample.counting (Some Sample.noAccess);
     Sample.counting (Some Allow)] Background Sample.userQuery 0 =
    Some (Some Sample.noAccess, 2) /\
  queryCalls
    [Sample.counting (Some Skip); Sample.counting (Some Sample.noAccess);
     Sample.counting (Some Allow)] Background Sample.userQuery 0 = Some [0; 1].
Proof.
  split; [repeat split|].
  apply (proj1 (deny_short_circuits nat Sample.Op)
           [Sample.counting (Some Skip)] [Sample.counting (Some Allow)]
           (Sample.counting (Some Sample.noAccess)) Background Sample.userQuery 0 1 2
           Sample.noAccess); reflexivity.
Defined.

Lemma fail_open_witness :
  (decisionFromContext Background = (None, false) /\
   all_skip [Sample.counting (Some Skip); Sample.counting (Some (Skipf "not mine" []))]
     Background Sample.deleteUser 0 = Some 2) /\
  MutationPolicy_EvalMutation
    [Sample.counting (Some Skip); Sample.counting (Some (Skipf "not mine" []))]
    Background Sample.deleteUser 0 = Some (None, 2).
Proof.
  split; [repeat split|].
  apply (proj2 (proj2 (proj2 (fail_open nat Sample.Op)))); reflexivity.
Defined.

Lemma allow_short_circuits_witness :
  (decisionFromContext Background = (None, false) /\
   skipped [Sample.counting None] Background Sample.userQuery 0 = Some 1 /\
   Sample.counting (Some (Allowf "owner" [])) Background Sample.userQuery 1 =
     Some (Some (Allowf "owner" []), 2) /\
   errors.Is (Some (Allowf "owner" [])) skip = false /\
   errors.Is (Some (Allowf "owner" [])) allow = true) /\
  QueryPolicy_EvalQuery
    [Sample.counting None; Sample.counting (Some (Allowf "owner" []));
     Sample.counting (Some Deny)] Background Sample.userQuery 0 = Some (None, 2) /\
  queryCalls
    [Sample.counting None; Sample.counting (Some (Allowf "owner" []));
     Sample.counting (Some Deny)] Background Sample.userQuery 0 = Some [0; 1].
Proof.
  split; [repeat split|].
  apply (proj1 (allow_short_circuits nat Sample.Op)
           [Sample.counting None] [Sample.counting (Some Deny)]
           (Sample.counting (Some (Allowf "owner" []))) Background Sample.userQuery 0 1 2
           (Allowf "owner" [])); reflexivity.
Defined.

(** C3 as stated fails: the first rule returns a decision that matches
    Allow, and also Skip; the evaluation goes on to the second rule and
    returns its Deny. *)
Lemma allow_match_passed_over :
  decisionFromContext Background = (None, false) /\
  Sample.counting (Some Sample.skipAndAllow) Background Sample.userQuery 0 =
    Some (Some Sample.skipAndAllow, 1) /\
  errors.Is (Some Sample.skipAndAllow) allow = true /\
  QueryPolicy_EvalQuery
    [Sample.counting (Some Sample.skipAndAllow); Sample.counting (Some Deny)]
    Background Sample.userQuery 0 = Some (Some Deny, 2) /\
  queryCalls
    [Sample.counting (Some Sample.skipAndAllow); Sample.counting (Some Deny)]
    Background Sample.userQuery 0 = Some [0; 1].
Proof. repeat split. Qed.

Lemma cached_decision_returned_witness :
  Value (built Sample.denied) decisionCtxKey = errAny Deny /\
  QueryPolicy_EvalQuery [Sample.counting (Some Allow)] (built Sample.denied)
    Sample.userQuery 0 = Some (Some Deny, 0) /\
  queryCalls [Sample.counting (Some Allow)] (built Sample.denied) Sample.userQuery 0 =
    Some [].
Proof.
  split; [reflexivity|].
  apply (proj1 (cached_decision_returned nat Sample.Op)
           [Sample.counting (Some Allow)] (built Sample.denied) Sample.userQuery 0 Deny).
  reflexivity.
Defined.

Lemma nil_is_skip_witness :
  (decisionFromContext Background = (None, false) /\
   skipped [Sample.counting None; Sample.counting (Some Skip); Sample.counting None]
     Background Sample.userQuery 0 = Some 3) /\
  QueryPolicy_EvalQuery
    [Sample.counting None; Sample.counting (Some Skip); Sample.counting None]
    Background Sample.userQuery 0 = Some (None, 3) /\
  queryCalls
    [Sample.counting None; Sample.counting (Some Skip); Sample.counting None]
    Background Sample.userQuery 0 = Some [0; 1; 2].
Proof.
  split; [repeat split|].
  apply (proj1 (proj2 (proj2 (nil_is_skip nat Sample.Op)))); reflexivity.
Defined.

Lemma never_returns_skip_witness :
  MutationPolicy_EvalMutation [Sample.counting (Some Skip)] (built Sample.denied)
    Sample.deleteUser 0 = Some (Some Deny, 0) /\
  errors.Is (Some Deny) skip = false.
Proof.
  split; [reflexivity|].
  apply (proj1 (proj2 (never_returns_skip nat Sample.Op))
           [Sample.counting (Some Skip)] Sample.denied Sample.deleteUser 0 (Some Deny) 0).
  reflexivity.
Defined.

Lemma decision_context_stores_definitive_witness :
  errors.Is (Some Sample.noAccess) skip = false /\
  DecisionContext Background (Some Sample.noAccess) =
    WithValue Background decisionCtxKey (errAny Sample.noAccess) /\
  decisionFromContext (DecisionContext Background (Some Sample.noAccess)) =
    (Some Sample.noAccess, true).
Proof.
  split; [reflexivity|].
  apply (proj1 (proj2 (proj2 decision_context_stores_definitive))
           Background Sample.noAccess).
  reflexivity.
Defined.

Lemma on_mutation_operation_filters_witness :
  Sample.Op_Is Sample.OpDelete Sample.OpCreate = false /\
  OnMutationOperation Sample.Op_Is (Sample.counting (Some Deny)) Sample.OpCreate
    Background Sample.deleteUser 0 = Some (Some Skip, 0) /\
  Sample.Op_Is Sample.OpDelete Sample.OpDelete = true /\
  OnMutationOperation Sample.Op_Is (Sample.counting (Some Deny)) Sample.OpDelete
    Background Sample.deleteUser 0 = Some (Some Deny, 1).
Proof.
  split; [reflexivity|]. split.
  - apply (proj1 (on_mutation_operation_filters nat Sample.Op Sample.Op_Is
             (Sample.counting (Some Deny)) Sample.OpCreate Background
             (Sample.entType "*ent.UserMutation") Sample.OpDelete 3 0)).
    reflexivity.
  - split; [reflexivity|].
    apply (proj2 (on_mutation_operation_filters nat Sample.Op Sample.Op_Is
             (Sample.counting (Some Deny)) Sample.OpDelete Background
             (Sample.entType "*ent.UserMutation") Sample.OpDelete 3 0)).
    reflexivity.
Defined.

Lemma node_rule_adapters_witness :
  percent_free (typeText (Sample.entType "*ent.UserQuery")) = true /\
  (typeAssert Sample.petQuery (Sample.entType "*ent.UserQuery") = false /\
   NameQueryRuleFunc_EvalQuery (Sample.entType "*ent.UserQuery")
     (Sample.counting (Some Allow)) Background Sample.petQuery 0 =
     Some (Some (Denyf "ent/privacy: unexpected query type %T, expect *ent.UserQuery"
                       [Sample.petQuery]), 0) /\
   fmt.render (Error (Denyf "ent/privacy: unexpected query type %T, expect *ent.UserQuery"
                            [Sample.petQuery])) =
     Some "ent/privacy: unexpected query type *ent.PetQuery, expect *ent.UserQuery: ent/privacy: deny rule"%string) /\
  (typeAssert Sample.otherUserQuery (Sample.entType "*ent.UserQuery") = false /\
   NameQueryRuleFunc_EvalQuery (Sample.entType "*ent.UserQuery")
     (Sample.counting (Some Allow)) Background Sample.otherUserQuery 0 =
     Some (Some (Denyf "ent/privacy: unexpected query type %T, expect *ent.UserQuery"
                       [Sample.otherUserQuery]), 0)) /\
  (typeAssert Sample.userQuery (Sample.entType "*ent.UserQuery") = true /\
   NameQueryRuleFunc_EvalQuery (Sample.entType "*ent.UserQuery")
     (Sample.counting (Some Allow)) Background Sample.userQuery 0 = Some (Some Allow, 1)) /\
  (typeAssert (Mutation_value Sample.deletePet) (Sample.entType "*ent.UserMutation") = false /\
   NameMutationRuleFunc_EvalMutation (Sample.entType "*ent.UserMutation")
     (Sample.counting (Some Allow)) Background Sample.deletePet 0 =
     Some (Some (Denyf "ent/privacy: unexpected mutation type %T, expect *ent.UserMutation"
                       [Mutation_value Sample.deletePet]), 0)) /\
  (typeAssert (Mutation_value Sample.deleteUser) (Sample.entType "*ent.UserMutation") = true /\
   NameMutationRuleFunc_EvalMutation (Sample.entType "*ent.UserMutation")
     (Sample.counting (Some Allow)) Background Sample.deleteUser 0 = Some (Some Allow, 1)).
Proof.
  pose proof (proj1 (proj2 (node_rule_adapters nat Sample.Op
                              (Sample.entType "*ent.UserQuery") eq_refl))
                (Sample.counting (Some Allow)) Background) as Hq.
  pose proof (proj2 (proj2 (node_rule_adapters nat Sample.Op
                              (Sample.entType "*ent.UserMutation") eq_refl))
                (Sample.counting (Some Allow)) Background) as Hm.
  split; [reflexivity|]. split; [|split; [|split; [|split]]].
  - split; [reflexivity|].
    destruct (proj2 (Hq Sample.petQuery 0) eq_refl) as (H1 & _ & _ & _ & H2).
    split; [exact H1 | exact H2].
  - split; [reflexivity|].
    exact (proj1 (proj2 (Hq Sample.otherUserQuery 0) eq_refl)).
  - split; [reflexivity|].
    exact (proj1 (Hq Sample.userQuery 0) eq_refl).
  - split; [reflexivity|].
    exact (proj1 (proj2 (Hm Sample.deletePet 0) eq_refl)).
  - split; [reflexivity|].
    exact (proj1 (Hm Sample.deleteUser 0) eq_refl).
Defined.

Lemma formatted_decision_matches_witness :
  plain_verbs "user %s may not read %T" = Some (length [valAny (builtinType "string") 0; Sample.petQuery]) /\
  errors.Is (Some (Denyf "user %s may not read %T" [valAny (builtinType "string") 0; Sample.petQuery]))
    deny = true.
Proof.
  split; [reflexivity|].
  apply (proj2 (formatted_decision_matches "user %s may not read %T"%string
                  [valAny (builtinType "string") 0; Sample.petQuery])).
  reflexivity.
Defined.

(** C7 as stated fails: the verb of the format takes the decision that
    [Denyf] appends, the appended [%w] finds no operand, and [Errorf]
    returns an error that wraps nothing. *)
Lemma Denyf_without_operand :
  Denyf "%d" [] = errorString (formatted "%d: %w" [errAny Deny]) /\
  errors.Is (Some (Denyf "%d" [])) deny = false.
Proof. split; reflexivity. Qed.

(** ** Further properties of the evaluation of a policy *)

Lemma range_not_allow {World X} (ctx : Context) (x : X) (policy : list (@rule World X)) :
  forall w decision w',
    range ctx x policy w = Some (decision, w') -> errors.Is decision allow = false.
Proof.
  induction policy as [|r rest IH]; intros w decision w' H.
  - injection H as <- _. reflexivity.
  - rewrite range_cons in H.
    destruct (r ctx x w) as [[d w1]|]; [|discriminate].
    destruct (continues d); [now apply (IH w1 decision w')|].
    destruct (errors.Is d allow) eqn:Ha.
    + injection H as <- _. reflexivity.
    + now injection H as <- _.
Qed.

Lemma evalPolicy_not_allow {World X} (policy : list (@rule World X)) ctx x w decision w' :
  evalPolicy policy ctx x w = Some (decision, w') ->
  errors.Is decision allow = false.
Proof.
  unfold evalPolicy, decisionFromContext.
  destruct (asError (Value ctx decisionCtxKey)) as [e|].
  - intros H. unfold ret in H. injection H as <- _.
    cbn [errors.Is].
    destruct (errors.is_ e allow) eqn:Ha; [reflexivity | exact Ha].
  - apply range_not_allow.
Qed.


(** A policy used as the first rule of another policy. *)
Lemma evalPolicy_nested {World X} (inner rest : list (@rule World X)) ctx x w :
  evalPolicy (evalPolicy inner :: rest) ctx x w =
  match evalPolicy inner ctx x w with
  | Some (None, w1) => evalPolicy rest ctx x w1
  | other => other
  end.
Proof.
  destruct (decisionFromContext ctx) as [cached ok] eqn:Hctx.
  destruct ok.
  - unfold evalPolicy. rewrite Hctx. unfold ret.
    destruct cached; reflexivity.
  - assert (Hu : decisionFromContext ctx = (None, false)).
    { unfold decisionFromContext in *.
      destruct (asError (Value ctx decisionCtxKey)); [discriminate | reflexivity]. }
    rewrite !(evalPolicy_uncached _ ctx x Hu).
    etransitivity; [exact (range_cons (evalPolicy inner) rest ctx x w)|].
    rewrite (evalPolicy_uncached inner ctx x Hu).
    destruct (range ctx x inner w) as [[[d|] w1]|] eqn:Hin; try reflexivity.
    pose proof (range_not_skip ctx x inner w _ _ Hin) as Hs.
    pose proof (range_not_allow ctx x inner w _ _ Hin) as Ha.
    unfold continues. cbn [is_nil orb]. now rewrite Hs, Ha.
Qed.

(** X2. A policy used as the first rule of a policy: when it returns an
    error, the outer policy returns that error; when it returns nil, because
    one of its rules allowed or because all of them skipped, the outer
    policy goes on with its next rules. So an Allow inside a nested policy
    does not end the evaluation of the outer one. *)
Theorem nested_policy (World Op : Type) :
  (forall (inner rest : QueryPolicy World) ctx q w,
      QueryPolicy_EvalQuery (QueryPolicy_EvalQuery inner :: rest) ctx q w =
      match QueryPolicy_EvalQuery inner ctx q w with
      | Some (None, w1) => QueryPolicy_EvalQuery rest ctx q w1
      | other => other
      end) /\
  (forall (inner rest : MutationPolicy World Op) ctx m w,
      MutationPolicy_EvalMutation (MutationPolicy_EvalMutation inner :: rest) ctx m w =
      match MutationPolicy_EvalMutation inner ctx m w with
      | Some (None, w1) => MutationPolicy_EvalMutation rest ctx m w1
      | other => other
      end).
Proof.
  split.
  - intros inner rest ctx q w. exact (evalPolicy_nested inner rest ctx q w).
  - intros inner rest ctx m w. exact (evalPolicy_nested inner rest ctx m w).
Qed.

Lemma evalPolicy_singleton {World X} (inner : list (@rule World X)) ctx x w :
  evalPolicy [evalPolicy inner] ctx x w = evalPolicy inner ctx x w.
Proof.
  rewrite evalPolicy_nested.
  destruct (evalPolicy inner ctx x w) as [[[d|] w1]|] eqn:Hin; try reflexivity.
  unfold evalPolicy in *.
  destruct (decisionFromContext ctx) as [cached [|]]; [|reflexivity].
  unfold ret in *. now injection Hin as -> ->.
Qed.

(** X3. A [Policy] used as the only rule of a query policy or of a mutation
    policy evaluates as the [Policy] itself does, in every context: its
    methods forward to its two policies, and wrapping a policy in a policy
    changes neither the decision nor what the rules do. *)
Theorem policy_as_rule (World Op : Type) :
  forall (policy : @Policy World Op) ctx q m w,
    QueryPolicy_EvalQuery [Policy_EvalQuery policy] ctx q w =
      QueryPolicy_EvalQuery (Policy_Query policy) ctx q w /\
    MutationPolicy_EvalMutation [Policy_EvalMutation policy] ctx m w =
      MutationPolicy_EvalMutation (Policy_Mutation policy) ctx m w /\
    QueryPolicy_EvalQuery [QueryRuleFunc_EvalQuery (Policy_EvalQuery policy)] ctx q w =
      Policy_EvalQuery policy ctx q w /\
    MutationPolicy_EvalMutation [MutationRuleFunc_EvalMutation (Policy_EvalMutation policy)]
      ctx m w = Policy_EvalMutation policy ctx m w.
Proof.
  intros policy ctx q m w. repeat split.
  - exact (evalPolicy_singleton (Policy_Query policy) ctx q w).
  - exact (evalPolicy_singleton (Policy_Mutation policy) ctx m w).
  - exact (evalPolicy_singleton (Policy_Query policy) ctx q w).
  - exact (evalPolicy_singleton (Policy_Mutation policy) ctx m w).
Qed.

Lemma range_app_decided {World X} (ctx : Context) (x : X) (policy more : list (@rule World X)) :
  forall w d w1,
    range ctx x policy w = Some (Some d, w1) ->
    range ctx x (policy ++ more) w = Some (Some d, w1).
Proof.
  induction policy as [|r rest IH]; intros w d w1 H.
  - discriminate H.
  - rewrite <- app_comm_cons, range_cons. rewrite range_cons in H.
    destruct (r ctx x w) as [[decision w']|]; [|discriminate].
    destruct (continues decision); [now apply IH|exact H].
Qed.

Lemma evalPolicy_app_decided {World X} (policy more : list (@rule World X)) ctx x w d w1 :
  evalPolicy policy ctx x w = Some (Some d, w1) ->
  evalPolicy (policy ++ more) ctx x w = Some (Some d, w1).
Proof.
  unfold evalPolicy. destruct (decisionFromContext ctx) as [cached [|]]; [trivial|].
  apply range_app_decided.
Qed.

(** X4. An error returned by a policy stays when rules are appended to the
    policy: the longer policy returns the same error and leaves the same
    world. Appended rules cannot lift a denial. *)
Theorem appended_rules_keep_denial (World Op : Type) :
  (forall (policy more : QueryPolicy World) ctx q w d w1,
      QueryPolicy_EvalQuery policy ctx q w = Some (Some d, w1) ->
      QueryPolicy_EvalQuery (policy ++ more) ctx q w = Some (Some d, w1)) /\
  (forall (policy more : MutationPolicy World Op) ctx m w d w1,
      MutationPolicy_EvalMutation policy ctx m w = Some (Some d, w1) ->
      MutationPolicy_EvalMutation (policy ++ more) ctx m w = Some (Some d, w1)).
Proof.
  split.
  - intros policy more ctx q w d w1. exact (evalPolicy_app_decided policy more ctx q w d w1).
  - intros policy more ctx m w d w1. exact (evalPolicy_app_decided policy more ctx m w d w1).
Qed.

Lemma range_app_allow {World X} (ctx : Context) (x : X) (policy : list (@rule World X)) :
  forall w,
    range ctx x (policy ++ [fun _ _ => ret (Some Allow)]) w = range ctx x policy w.
Proof.
  induction policy as [|r rest IH]; intros w.
  - reflexivity.
  - rewrite <- app_comm_cons, !range_cons.
    destruct (r ctx x w) as [[decision w']|]; [|reflexivity].
    destruct (continues decision); [apply IH | reflexivity].
Qed.

(** X5. [AlwaysAllowRule] at the end of a policy changes nothing: in every
    context the policy with it and the policy without it return the same
    decision and leave the same world, since a policy whose rules all skip
    returns nil as well. *)
Theorem trailing_allow_is_redundant (World Op : Type) :
  (forall (policy : QueryPolicy World) ctx q w,
      QueryPolicy_EvalQuery (policy ++ [EvalQuery (@AlwaysAllowRule World Op)]) ctx q w =
      QueryPolicy_EvalQuery policy ctx q w) /\
  (forall (policy : MutationPolicy World Op) ctx m w,
      MutationPolicy_EvalMutation (policy ++ [EvalMutation (@AlwaysAllowRule World Op)]) ctx m w =
      MutationPolicy_EvalMutation policy ctx m w).
Proof.
  split.
  - intros policy ctx q w. rewrite !QueryPolicy_EvalQuery_evalPolicy. unfold evalPolicy.
    destruct (decisionFromContext ctx) as [cached [|]]; [reflexivity|].
    exact (range_app_allow ctx q policy w).
  - intros policy ctx m w. rewrite !MutationPolicy_EvalMutation_evalPolicy. unfold evalPolicy.
    destruct (decisionFromContext ctx) as [cached [|]]; [reflexivity|].
    exact (range_app_allow ctx m policy w).
Qed.

(** X6. [AlwaysDenyRule] as a catch-all: in a context without a cached
    decision, when all rules before it return nil or a decision matching
    Skip, the policy returns the Deny variable itself, whatever the
    operation, and invokes no rule after it; [AlwaysDenyRule] leaves the
    world as it finds it. Alone in a policy it denies every operation. *)
Theorem always_deny_is_default (World Op : Type) :
  (forall (pre post : QueryPolicy World) ctx q w w1,
      decisionFromContext ctx = (None, false) ->
      skipped pre ctx q w = Some w1 ->
      QueryPolicy_EvalQuery (pre ++ EvalQuery (@AlwaysDenyRule World Op) :: post) ctx q w =
        Some (Some Deny, w1) /\
      queryCalls (pre ++ EvalQuery (@AlwaysDenyRule World Op) :: post) ctx q w =
        Some (seq 0 (S (length pre)))) /\
  (forall (pre post : MutationPolicy World Op) ctx m w w1,
      decisionFromContext ctx = (None, false) ->
      skipped pre ctx m w = Some w1 ->
      MutationPolicy_EvalMutation (pre ++ EvalMutation (@AlwaysDenyRule World Op) :: post)
        ctx m w = Some (Some Deny, w1) /\
      mutationCalls (pre ++ EvalMutation (@AlwaysDenyRule World Op) :: post) ctx m w =
        Some (seq 0 (S (length pre)))).
Proof.
  split.
  - intros pre post ctx q w w1 Hctx Hpre.
    unfold queryCalls. rewrite !QueryPolicy_EvalQuery_evalPolicy.
    rewrite !(evalPolicy_uncached _ ctx q Hctx).
    exact (range_short_circuit pre (EvalQuery AlwaysDenyRule) post ctx q w w1 w1 Deny
             Hpre eq_refl eq_refl).
  - intros pre post ctx m w w1 Hctx Hpre.
    unfold mutationCalls. rewrite !MutationPolicy_EvalMutation_evalPolicy.
    rewrite !(evalPolicy_uncached _ ctx m Hctx).
    exact (range_short_circuit pre (EvalMutation AlwaysDenyRule) post ctx m w w1 w1 Deny
             Hpre eq_refl eq_refl).
Qed.

(** ** Further properties of the rule adapters *)

(** X7. [DenyMutationOperationRule(op)]: on a mutation whose kind matches
    [op] it returns an error that wraps the Deny variable, matches neither
    Skip nor Allow, and carries "ent/privacy: operation %s is not allowed"
    with the kind as operand; a mutation policy that reaches it on such a
    mutation returns this error and invokes no rule after it. On a mutation
    of another kind it returns Skip. *)
Theorem deny_mutation_operation_rule (World Op : Type) (Op_Is : Op -> Op -> bool)
        (Op_value : Op -> value) :
  forall (op : Op) ctx typ mop ref (w : World),
    let m := mutation typ mop ref in
    let e := wrapError
               (formatted "ent/privacy: operation %s is not allowed: %w"
                          [Op_value mop; errAny Deny])
               (Some Deny) in
    (Op_Is mop op = true ->
       DenyMutationOperationRule Op_Is Op_value op ctx m w = Some (Some e, w) /\
       errors.Is (Some e) deny = true /\
       errors.Is (Some e) skip = false /\
       errors.Is (Some e) allow = false /\
       forall (pre post : MutationPolicy World Op) w0,
         decisionFromContext ctx = (None, false) ->
         skipped pre ctx m w0 = Some w ->
         MutationPolicy_EvalMutation
           (pre ++ DenyMutationOperationRule Op_Is Op_value op :: post) ctx m w0 =
         Some (Some e, w)) /\
    (Op_Is mop op = false ->
       DenyMutationOperationRule Op_Is Op_value op ctx m w = Some (Some Skip, w)).
Proof.
  intros op ctx typ mop ref w m e. split; intros Hop.
  - assert (Hrule : DenyMutationOperationRule Op_Is Op_value op ctx m w = Some (Some e, w)).
    { unfold DenyMutationOperationRule, OnMutationOperation, MutationRuleFunc_EvalMutation,
        bind, m. cbn [Mutation_Op ret]. now rewrite Hop. }
    split; [exact Hrule|]. repeat split.
    intros pre post w0 Hctx Hpre.
    rewrite MutationPolicy_EvalMutation_evalPolicy, (evalPolicy_uncached _ ctx m Hctx).
    exact (proj1 (range_short_circuit pre _ post ctx m w0 w w e Hpre Hrule eq_refl)).
  - unfold DenyMutationOperationRule, OnMutationOperation, MutationRuleFunc_EvalMutation,
      bind, m. cbn [Mutation_Op ret]. now rewrite Hop.
Qed.

(** X8. Filters by operation kind compose: a rule under two filters is
    evaluated on the mutations whose kind matches both kinds, and returns
    Skip, without being invoked, on every other mutation. On the nil
    mutation a filter panics, as [m.Op()] does. *)
Theorem nested_operation_filters (World Op : Type) (Op_Is : Op -> Op -> bool) :
  forall (r : MutationRule World Op) (op1 op2 : Op) ctx w,
    (forall typ mop ref,
        OnMutationOperation Op_Is (OnMutationOperation Op_Is r op1) op2 ctx
          (mutation typ mop ref) w =
        if Op_Is mop op1 && Op_Is mop op2 then r ctx (mutation typ mop ref) w
        else Some (Some Skip, w)) /\
    OnMutationOperation Op_Is r op1 ctx nilMutation w = None.
Proof.
  intros r op1 op2 ctx w. split; [|reflexivity].
  intros typ mop ref.
  unfold OnMutationOperation, MutationRuleFunc_EvalMutation, bind, Mutation_Op, ret.
  destruct (Op_Is mop op2), (Op_Is mop op1); reflexivity.
Qed.

(** X9. A rule written for one node type, placed in a policy and reached
    with an operation of another type, makes the policy deny: the policy
    returns the adapter's error, which wraps Deny, leaves the world as the
    rules before the adapter left it, and invokes no rule after the
    adapter. *)
Theorem mistyped_operation_is_denied (World Op : Type) (type : goType) :
  percent_free (typeText type) = true ->
  (forall (pre post : QueryPolicy World) (f : @NameQueryRuleFunc World) ctx (q : Query) w w1,
      decisionFromContext ctx = (None, false) ->
      skipped pre ctx q w = Some w1 ->
      typeAssert q type = false ->
      let e := Denyf ("ent/privacy: unexpected query type %T, expect " ++ typeText type)%string [q] in
      QueryPolicy_EvalQuery (pre ++ NameQueryRuleFunc_EvalQuery type f :: post) ctx q w =
        Some (Some e, w1) /\
      errors.Is (Some e) deny = true /\
      queryCalls (pre ++ NameQueryRuleFunc_EvalQuery type f :: post) ctx q w =
        Some (seq 0 (S (length pre)))) /\
  (forall (pre post : MutationPolicy World Op) (f : @NameMutationRuleFunc World Op) ctx m w w1,
      decisionFromContext ctx = (None, false) ->
      skipped pre ctx m w = Some w1 ->
      typeAssert (Mutation_value m) type = false ->
      let e := Denyf ("ent/privacy: unexpected mutation type %T, expect " ++ typeText type)%string
                     [Mutation_value m] in
      MutationPolicy_EvalMutation (pre ++ NameMutationRuleFunc_EvalMutation type f :: post)
        ctx m w = Some (Some e, w1) /\
      errors.Is (Some e) deny = true /\
      mutationCalls (pre ++ NameMutationRuleFunc_EvalMutation type f :: post) ctx m w =
        Some (seq 0 (S (length pre)))).
Proof.
  intros Htype. split.
  - intros pre post f ctx q w w1 Hctx Hpre Hq e.
    destruct (unexpected_type_error "query" (typeText type) q eq_refl Htype) as [He _].
    change (Denyf ("ent/privacy: unexpected " ++ "query" ++ " type %T, expect " ++ typeText type) [q])
      with e in He.
    assert (Hrule : NameQueryRuleFunc_EvalQuery type f ctx q w1 = Some (Some e, w1)).
    { unfold NameQueryRuleFunc_EvalQuery. now rewrite Hq. }
    assert (Hs : errors.Is (Some e) skip = false) by now rewrite He.
    assert (Ha : errors.Is (Some e) allow = false) by now rewrite He.
    unfold queryCalls.
    rewrite !QueryPolicy_EvalQuery_evalPolicy, !(evalPolicy_uncached _ ctx q Hctx).
    destruct (range_short_circuit pre _ post ctx q w w1 w1 e Hpre Hrule Hs) as [H1 H2].
    rewrite Ha in H1. split; [exact H1|]. split; [now rewrite He | exact H2].
  - intros pre post f ctx m w w1 Hctx Hpre Hm e.
    destruct (unexpected_type_error "mutation" (typeText type) (Mutation_value m) eq_refl Htype)
      as [He _].
    change (Denyf ("ent/privacy: unexpected " ++ "mutation" ++ " type %T, expect " ++ typeText type)
                  [Mutation_value m]) with e in He.
    assert (Hrule : NameMutationRuleFunc_EvalMutation type f ctx m w1 = Some (Some e, w1)).
    { unfold NameMutationRuleFunc_EvalMutation. now rewrite Hm. }
    assert (Hs : errors.Is (Some e) skip = false) by now rewrite He.
    assert (Ha : errors.Is (Some e) allow = false) by now rewrite He.
    unfold mutationCalls.
    rewrite !MutationPolicy_EvalMutation_evalPolicy, !(evalPolicy_uncached _ ctx m Hctx).
    destruct (range_short_circuit pre _ post ctx m w w1 w1 e Hpre Hrule Hs) as [H1 H2].
    rewrite Ha in H1. split; [exact H1|]. split; [now rewrite He | exact H2].
Qed.

(** ** Further properties of the decision context *)

Lemma built_app calls more :
  built (calls ++ more) = fold_left derive more (built calls).
Proof. unfold built. apply fold_left_app. Qed.

Lemma derive_keeps_decision ctx d :
  keeps_decision d = true ->
  Value (derive ctx d) decisionCtxKey = Value ctx decisionCtxKey.
Proof.
  destruct d as [k val | | decision]; intros H; try reflexivity.
  cbn [derive]. unfold keeps_decision, definitive in H. apply negb_true_iff in H.
  apply negb_false_iff in H.
  destruct decision as [e|]; [|reflexivity].
  cbn [is_nil orb] in H. unfold DecisionContext. now rewrite H.
Qed.

Lemma fold_derive_keeps_decision more : forall ctx,
  forallb keeps_decision more = true ->
  Value (fold_left derive more ctx) decisionCtxKey = Value ctx decisionCtxKey.
Proof.
  induction more as [|d more IH]; intros ctx H; simpl in *.
  - reflexivity.
  - apply andb_true_iff in H as [Hd Hmore].
    rewrite (IH _ Hmore). now apply derive_keeps_decision.
Qed.

Lemma derive_other_key ctx decision k :
  Value (DecisionContext ctx decision) (otherKey k) = Value ctx (otherKey k).
Proof.
  destruct decision as [e|]; [|reflexivity].
  unfold DecisionContext. now destruct (errors.Is (Some e) skip).
Qed.

(** X10. The decision read from a context is the latest definitive one
    stored in it: after [DecisionContext] with a decision that is neither
    nil nor a match of Skip, and any number of later [WithValue] under other
    keys, cancellations and [DecisionContext] calls with nil or Skip, the
    context reports that decision (nil if it matches Allow), whatever was
    stored before. A context in which no definitive decision was stored
    reports none, and [DecisionContext] never changes the value under
    another key. *)
Theorem latest_decision_wins :
  (forall calls d more,
      definitive (Some d) = true ->
      forallb keeps_decision more = true ->
      decisionFromContext (built (calls ++ withDecision (Some d) :: more)) =
        ((if errors.Is (Some d) allow then None else Some d), true)) /\
  (forall calls,
      forallb keeps_decision calls = true ->
      decisionFromContext (built calls) = (None, false)) /\
  (forall ctx decision k,
      Value (DecisionContext ctx decision) (otherKey k) = Value ctx (otherKey k)).
Proof.
  split; [|split].
  - intros calls d more Hd Hmore.
    rewrite built_app. cbn [fold_left]. unfold decisionFromContext.
    rewrite (fold_derive_keeps_decision more _ Hmore).
    cbn [derive]. unfold definitive in Hd. apply negb_true_iff in Hd.
    cbn [is_nil orb] in Hd. unfold DecisionContext. rewrite Hd. reflexivity.
  - intros calls Hcalls. unfold decisionFromContext, built.
    now rewrite (fold_derive_keeps_decision calls Background Hcalls).
  - exact derive_other_key.
Qed.

(** X11. A denial survives a round trip through the context: when a policy,
    evaluated in a context built by the calls of the package, returns an
    error, then [DecisionContext] stores this error, and in the context it
    returns every query policy and every mutation policy return the same
    error for every operation, without invoking a rule. *)
Theorem stored_denial_is_replayed (World Op : Type) :
  forall (policy : QueryPolicy World) calls q w d w1,
    QueryPolicy_EvalQuery policy (built calls) q w = Some (Some d, w1) ->
    let ctx := DecisionContext (built calls) (Some d) in
    decisionFromContext ctx = (Some d, true) /\
    (forall (later : QueryPolicy World) q' w',
        QueryPolicy_EvalQuery later ctx q' w' = Some (Some d, w') /\
        queryCalls later ctx q' w' = Some []) /\
    (forall (later : MutationPolicy World Op) m' w',
        MutationPolicy_EvalMutation later ctx m' w' = Some (Some d, w') /\
        mutationCalls later ctx m' w' = Some []).
Proof.
  intros policy calls q w d w1 H ctx.
  rewrite QueryPolicy_EvalQuery_evalPolicy in H.
  pose proof (evalPolicy_not_skip policy calls q w _ _ H) as Hs.
  pose proof (evalPolicy_not_allow policy (built calls) q w _ _ H) as Ha.
  assert (Hctx : asError (Value ctx decisionCtxKey) = Some d).
  { unfold ctx, DecisionContext. now rewrite Hs. }
  split; [|split].
  - unfold decisionFromContext. now rewrite Hctx, Ha.
  - intros later q' w'. unfold queryCalls.
    rewrite !QueryPolicy_EvalQuery_evalPolicy, !(evalPolicy_cached _ ctx q' _ d Hctx).
    now rewrite Ha.
  - intros later m' w'. unfold mutationCalls.
    rewrite !MutationPolicy_EvalMutation_evalPolicy, !(evalPolicy_cached _ ctx m' _ d Hctx).
    now rewrite Ha.
Qed.

(** ** A further property of formatted decisions *)

Lemma is_wrapErrors_inv msg errs d :
  errors.is_ (wrapErrors msg errs) d = true ->
  exists e, In e errs /\ errors.is_ e d = true.
Proof.
  simpl. induction errs as [|e errs IH]; intros H.
  - discriminate.
  - apply orb_true_iff in H as [H | H].
    + exists e. split; [now left | exact H].
    + destruct (IH H) as (e' & Hin & He'). exists e'. split; [now right | exact He'].
Qed.

Lemma asError_nth_In (a : list value) n e :
  asError (nth n a nilAny) = Some e -> In (errAny e) a.
Proof.
  intros H. destruct (nth_in_or_default n a nilAny) as [Hin | Hd].
  - destruct (nth n a nilAny); try discriminate. now injection H as <-.
  - rewrite Hd in H. discriminate.
Qed.

Lemma collect_operands (a : list value) e : forall wrapped prev,
  In e (fmt.collect a prev wrapped) -> In (errAny e) a.
Proof.
  induction wrapped as [|n rest IH]; intros prev H; cbn [fmt.collect] in H.
  - destruct H.
  - destruct (match prev with Some m => Nat.eqb m n | None => false end);
      [now apply (IH (Some n))|].
    destruct (asError (nth n a nilAny)) as [e'|] eqn:He'; [|now apply (IH (Some n))].
    destruct H as [-> | H]; [now apply (asError_nth_In a n) | now apply (IH (Some n))].
Qed.

(** What [Errorf] wraps is among its operands. *)
Lemma Errorf_is_inv format (a : list value) d :
  errors.is_ (fmt.Errorf format a) d = true ->
  exists e, In (errAny e) a /\ errors.is_ e d = true.
Proof.
  unfold fmt.Errorf.
  destruct (fmt.wrappedErrs (fmt.doPrintf format a)) as [|i [|j l]].
  - discriminate.
  - cbn [errors.is_].
    destruct (asError (nth i a nilAny)) as [e|] eqn:He; [|discriminate].
    intros H. exists e. split; [now apply (asError_nth_In a i) | exact H].
  - intros H. apply is_wrapErrors_inv in H as (e & Hin & He).
    exists e. split; [now apply collect_operands in Hin | exact He].
Qed.

(** X12. Formatting gives a decision no other identity than the ones it is
    given: for every format and arguments, an error returned by [Allowf],
    [Denyf] or [Skipf] matches a decision variable other than its own only
    if one of the arguments is an error that matches it. With arguments
    none of which is an error, it matches no other decision variable,
    whatever the format: a [Denyf] is never taken for a Skip or an Allow. *)
Theorem formatted_decision_matches_no_other :
  forall (d d' : sentinel) (format : string) (a : list value),
    (errors.Is (Some (decisionf d format a)) d' = true ->
     d = d' \/ exists e, In (errAny e) a /\ errors.Is (Some e) d' = true) /\
    ((forall x, In x a -> asError x = None) ->
     errors.Is (Some (decisionf d format a)) d' = true -> d = d').
Proof.
  intros d d' format a.
  assert (H : errors.Is (Some (decisionf d format a)) d' = true ->
              d = d' \/ exists e, In (errAny e) a /\ errors.Is (Some e) d' = true).
  { intros H. unfold decisionf in H. cbn [errors.Is] in H.
    apply Errorf_is_inv in H as (e & Hin & He).
    apply in_app_or in Hin as [Hin | [Heq | []]].
    - right. exists e. now split.
    - left. injection Heq as <-. cbn in He. now destruct d, d'. }
  split; [exact H|].
  intros Hnone Hmatch. destruct (H Hmatch) as [Heq | (e & Hin & _)]; [exact Heq|].
  specialize (Hnone _ Hin). discriminate.
Qed.

(** ** Properties of [GroupTag.scanValues] and [GroupTag.assignValues] *)

Section GroupTagFacts.

Import GroupTagEntity.

Context (FieldID FieldTagID FieldGroupID : string).
Context {SelectValues : Type}.
Context (SelectValues_Set : string -> scanValue -> SelectValues -> SelectValues).
Context (int : Z -> Z).

Local Abbreviation scanValues := (scanValues FieldID FieldTagID FieldGroupID).
Local Abbreviation assignLoop :=
  (assignLoop FieldID FieldTagID FieldGroupID SelectValues_Set int).
Local Abbreviation assignValues :=
  (assignValues FieldID FieldTagID FieldGroupID SelectValues_Set int).

Lemma assignLoop_scanned : forall columns (m : GroupTag),
  exists m',
    assignLoop columns (fst (scanValues columns)) m = (m', returned None) /\
    TagID m' = TagID m /\ GroupID m' = GroupID m /\
    ID m' = if existsb (fun column => String.eqb column FieldID) columns
            then int 0 else ID m.
Proof.
  induction columns as [|column columns IH]; intros m.
  - exists m. repeat split.
  - cbn [scanValues fst map GroupTagEntity.assignLoop existsb].
    destruct (String.eqb column FieldID) eqn:Hid.
    + cbn [orb].
      destruct (IH {| ID := int 0; TagID := TagID m; GroupID := GroupID m;
                      selectValues := selectValues m |}) as (m' & Hm' & Ht & Hg & Hi).
      exists m'. split; [exact Hm'|]. split; [exact Ht|]. split; [exact Hg|].
      rewrite Hi. cbn. now destruct (existsb _ columns).
    + destruct (String.eqb column FieldTagID) eqn:Htag.
      * cbn [orb]. exact (IH m).
      * destruct (String.eqb column FieldGroupID) eqn:Hgroup.
        -- cbn [orb]. exact (IH m).
        -- cbn [orb].
           destruct (IH {| ID := ID m; TagID := TagID m; GroupID := GroupID m;
                           selectValues :=
                             SelectValues_Set column (UnknownType nilAny) (selectValues m) |})
             as (m' & Hm' & Ht & Hg & Hi).
           exists m'. now repeat split.
Qed.

(** X13. The values that [scanValues] prepares for a list of columns are as
    many as the columns and of the types that [assignValues] expects:
    assigning them as they are, before any row is scanned into them,
    returns no error and does not panic. It leaves [TagID] and [GroupID] as
    they were, their values being NULL, but sets [ID] to zero when the id
    column is among the columns: the id is assigned without regard to
    [Valid]. *)
Theorem scanned_values_are_assignable :
  forall columns (m : GroupTag),
    snd (scanValues columns) = None /\
    length (fst (scanValues columns)) = length columns /\
    exists m',
      assignValues columns (fst (scanValues columns)) m = (m', returned None) /\
      TagID m' = TagID m /\ GroupID m' = GroupID m /\
      ID m' = if existsb (fun column => String.eqb column FieldID) columns
              then int 0 else ID m.
Proof.
  intros columns m. split; [reflexivity|].
  assert (Hlen : length (fst (scanValues columns)) = length columns)
    by apply length_map.
  split; [exact Hlen|].
  unfold GroupTagEntity.assignValues. rewrite Hlen, Nat.ltb_irrefl.
  apply assignLoop_scanned.
Qed.

Lemma assignLoop_surplus extra : forall columns values (m : GroupTag),
  length columns <= length values ->
  assignLoop columns (values ++ extra) m = assignLoop columns values m.
Proof.
  induction columns as [|column columns IH]; intros values m Hlen.
  - reflexivity.
  - destruct values as [|v values]; [simpl in Hlen; lia|].
    simpl in Hlen. assert (Hlen' : length columns <= length values) by lia.
    cbn [GroupTagEntity.assignLoop app].
    destruct (String.eqb column FieldID); [destruct v; try reflexivity; now apply IH|].
    destruct (String.eqb column FieldTagID); [destruct v; try reflexivity; now apply IH|].
    destruct (String.eqb column FieldGroupID); [destruct v; try reflexivity; now apply IH|].
    now apply IH.
Qed.

(** X14. [assignValues] with fewer values than columns returns the error
    "mismatch number of scan values", which wraps nothing, and leaves the
    entity untouched; with at least as many values as columns, the values
    beyond the last column are ignored. *)
Theorem assign_values_count :
  forall columns values extra (m : GroupTag),
    (length values < length columns ->
       assignValues columns values m =
       (m, returned
             (Some (errorString
                      (formatted "mismatch number of scan values: %d != %d"
                         [intOperand (length values); intOperand (length columns)]))))) /\
    (length columns <= length values ->
       assignValues columns (values ++ extra) m = assignValues columns values m).
Proof.
  intros columns values extra m. split; intros Hlen.
  - unfold GroupTagEntity.assignValues.
    apply Nat.ltb_lt in Hlen. rewrite Hlen. reflexivity.
  - unfold GroupTagEntity.assignValues. rewrite length_app.
    assert (H1 : Nat.ltb (length values + length extra) (length columns) = false)
      by (apply Nat.ltb_ge; lia).
    assert (H2 : Nat.ltb (length values) (length columns) = false)
      by (apply Nat.ltb_ge; lia).
    rewrite H1, H2. now apply assignLoop_surplus.
Qed.

Lemma assignLoop_app columns2 values2 : forall columns1 values1 (m : GroupTag),
  length columns1 = length values1 ->
  assignLoop (columns1 ++ columns2) (values1 ++ values2) m =
  match assignLoop columns1 values1 m with
  | (m1, returned None) => assignLoop columns2 values2 m1
  | other => other
  end.
Proof.
  induction columns1 as [|column columns1 IH]; intros values1 m Hlen.
  - destruct values1; [reflexivity | discriminate].
  - destruct values1 as [|v values1]; [discriminate|].
    injection Hlen as Hlen.
    cbn [GroupTagEntity.assignLoop app].
    destruct (String.eqb column FieldID); [destruct v; try reflexivity; now apply IH|].
    destruct (String.eqb column FieldTagID); [destruct v; try reflexivity; now apply IH|].
    destruct (String.eqb column FieldGroupID); [destruct v; try reflexivity; now apply IH|].
    now apply IH.
Qed.

(** X15. [assignValues] works through the columns in order and stops at the
    first value it cannot assign: for columns and values given in two
    parts, it does on the whole what it does on the first part and then, if
    that returned no error, on the second part from the entity the first
    part left. When the first part returns an error or panics, so does the
    whole, and it leaves the entity as the first part left it: the fields
    assigned before the error or the panic keep their new values. *)
Theorem assign_values_in_order :
  forall columns1 columns2 values1 values2 (m : GroupTag),
    length columns1 = length values1 ->
    length columns2 <= length values2 ->
    assignValues (columns1 ++ columns2) (values1 ++ values2) m =
    match assignValues columns1 values1 m with
    | (m1, returned None) => assignValues columns2 values2 m1
    | other => other
    end.
Proof.
  intros columns1 columns2 values1 values2 m H1 H2.
  unfold GroupTagEntity.assignValues. rewrite !length_app, H1, Nat.ltb_irrefl.
  assert (Ha : Nat.ltb (length values1 + length values2)
                 (length values1 + length columns2) = false) by (apply Nat.ltb_ge; lia).
  assert (Hb : Nat.ltb (length values2) (length columns2) = false)
    by (apply Nat.ltb_ge; lia).
  rewrite Ha, Hb. now apply assignLoop_app.
Qed.


End GroupTagFacts.

(** ** Instances of the further properties *)


Lemma appended_rules_keep_denial_witness :
  QueryPolicy_EvalQuery [Sample.counting (Some Skip); Sample.counting (Some Sample.noAccess)]
    Background Sample.userQuery 0 = Some (Some Sample.noAccess, 2) /\
  QueryPolicy_EvalQuery
    ([Sample.counting (Some Skip); Sample.counting (Some Sample.noAccess)] ++
     [Sample.counting (Some Allow)])
    Background Sample.userQuery 0 = Some (Some Sample.noAccess, 2).
Proof.
  split; [reflexivity|].
  apply (proj1 (appended_rules_keep_denial nat Sample.Op)). reflexivity.
Defined.

Lemma always_deny_is_default_witness :
  (decisionFromContext Background = (None, false) /\
   skipped [Sample.counting None] Background Sample.deleteUser 0 = Some 1) /\
  MutationPolicy_EvalMutation
    ([Sample.counting None] ++ EvalMutation AlwaysDenyRule :: [Sample.counting (Some Allow)])
    Background Sample.deleteUser 0 = Some (Some Deny, 1) /\
  mutationCalls
    ([Sample.counting None] ++ EvalMutation AlwaysDenyRule :: [Sample.counting (Some Allow)])
    Background Sample.deleteUser 0 = Some [0; 1].
Proof.
  split; [split; reflexivity|].
  apply (proj2 (always_deny_is_default nat Sample.Op)
           [Sample.counting None] [Sample.counting (Some Allow)] Background
           Sample.deleteUser 0 1); reflexivity.
Defined.

Lemma deny_mutation_operation_rule_witness :
  Sample.Op_Is Sample.OpDelete Sample.OpDelete = true /\
  DenyMutationOperationRule Sample.Op_Is sampleOpOperand Sample.OpDelete Background
    Sample.deleteUser 0 =
    Some (Some (wrapError
                  (formatted "ent/privacy: operation %s is not allowed: %w"
                     [sampleOpOperand Sample.OpDelete; errAny Deny])
                  (Some Deny)), 0) /\
  Sample.Op_Is Sample.OpDelete Sample.OpCreate = false /\
  DenyMutationOperationRule Sample.Op_Is sampleOpOperand Sample.OpCreate Background
    Sample.deleteUser 0 = Some (Some Skip, 0).
Proof.
  pose proof (deny_mutation_operation_rule nat Sample.Op Sample.Op_Is sampleOpOperand) as H.
  split; [reflexivity|]. split.
  - exact (proj1 (proj1 (H Sample.OpDelete Background (Sample.entType "*ent.UserMutation")
                           Sample.OpDelete 3 0) eq_refl)).
  - split; [reflexivity|].
    exact (proj2 (H Sample.OpCreate Background (Sample.entType "*ent.UserMutation")
                    Sample.OpDelete 3 0) eq_refl).
Defined.

Lemma mistyped_operation_is_denied_witness :
  (percent_free (typeText (Sample.entType "*ent.UserQuery")) = true /\
   decisionFromContext Background = (None, false) /\
   skipped [Sample.counting (Some Skip)] Background Sample.otherUserQuery 0 = Some 1 /\
   typeAssert Sample.otherUserQuery (Sample.entType "*ent.UserQuery") = false) /\
  QueryPolicy_EvalQuery
    ([Sample.counting (Some Skip)] ++
     NameQueryRuleFunc_EvalQuery (Sample.entType "*ent.UserQuery")
       (Sample.counting (Some Allow)) ::
     [Sample.counting (Some Allow)])
    Background Sample.otherUserQuery 0 =
    Some (Some (Denyf "ent/privacy: unexpected query type %T, expect *ent.UserQuery"
                      [Sample.otherUserQuery]), 1) /\
  MutationPolicy_EvalMutation
    ([Sample.counting (Some Skip)] ++
     NameMutationRuleFunc_EvalMutation (Sample.entType "*ent.UserMutation")
       (Sample.counting (Some Allow)) ::
     [Sample.counting (Some Allow)])
    Background Sample.deletePet 0 =
    Some (Some (Denyf "ent/privacy: unexpected mutation type %T, expect *ent.UserMutation"
                      [Mutation_value Sample.deletePet]), 1).
Proof.
  split; [repeat split|]. split.
  - apply (proj1 (mistyped_operation_is_denied nat Sample.Op
                    (Sample.entType "*ent.UserQuery") eq_refl)
             [Sample.counting (Some Skip)] [Sample.counting (Some Allow)]
             (Sample.counting (Some Allow)) Background Sample.otherUserQuery 0 1);
      reflexivity.
  - apply (proj2 (mistyped_operation_is_denied nat Sample.Op
                    (Sample.entType "*ent.UserMutation") eq_refl)
             [Sample.counting (Some Skip)] [Sample.counting (Some Allow)]
             (Sample.counting (Some Allow)) Background Sample.deletePet 0 1);
      reflexivity.
Defined.

Lemma latest_decision_wins_witness :
  (definitive (Some Deny) = true /\
   forallb keeps_decision [withCancel; withDecision (Some Skip); withValue 1 nilAny] = true) /\
  decisionFromContext
    (built ([withDecision (Some Allow)] ++
            withDecision (Some Deny) ::
            [withCancel; withDecision (Some Skip); withValue 1 nilAny])) =
    (Some Deny, true).
Proof.
  split; [split; reflexivity|].
  apply (proj1 latest_decision_wins [withDecision (Some Allow)] Deny
           [withCancel; withDecision (Some Skip); withValue 1 nilAny]); reflexivity.
Defined.

Lemma stored_denial_is_replayed_witness :
  QueryPolicy_EvalQuery [Sample.counting (Some Sample.noAccess)]
    (built [withValue 7 nilAny]) Sample.userQuery 0 = Some (Some Sample.noAccess, 1) /\
  MutationPolicy_EvalMutation [Sample.counting (Some Allow)]
    (DecisionContext (built [withValue 7 nilAny]) (Some Sample.noAccess))
    Sample.deleteUser 5 = Some (Some Sample.noAccess, 5).
Proof.
  split; [reflexivity|].
  apply (proj2 (proj2 (stored_denial_is_replayed nat Sample.Op
                         [Sample.counting (Some Sample.noAccess)] [withValue 7 nilAny]
                         Sample.userQuery 0 Sample.noAccess 1 eq_refl))).
Defined.

Lemma formatted_decision_matches_no_other_witness :
  errors.Is (Some (Skipf "%w" [errAny Allow])) allow = true /\
  (skip = allow \/
   exists e, In (errAny e) [errAny Allow] /\ errors.Is (Some e) allow = true).
Proof.
  split; [reflexivity|].
  apply (proj1 (formatted_decision_matches_no_other skip allow "%w"%string [errAny Allow])).
  reflexivity.
Defined.

Lemma assign_values_count_witness :
  length [GroupTagEntity.NullInt64 5 true] < length ["id"; "tag_id"]%string /\
  SampleGroupTag.assign ["id"; "tag_id"]%string [GroupTagEntity.NullInt64 5 true]
    SampleGroupTag.row =
    (SampleGroupTag.row,
     GroupTagEntity.returned
       (Some (errorString
                (formatted "mismatch number of scan values: %d != %d"
                   [GroupTagEntity.intOperand 1; GroupTagEntity.intOperand 2])))).
Proof.
  split; [simpl; lia|].
  apply (proj1 (assign_values_count "id" "tag_id" "group_id" SampleGroupTag.Set_
                  (fun x : Z => x) ["id"; "tag_id"]%string [GroupTagEntity.NullInt64 5 true]
                  [] SampleGroupTag.row)).
  simpl; lia.
Defined.

Lemma assign_values_in_order_witness :
  (length ["id"%string] = length [GroupTagEntity.NullInt64 7 false] /\
   length ["tag_id"%string] <= length [GroupTagEntity.NullInt64 9 false]) /\
  SampleGroupTag.assign (["id"%string] ++ ["tag_id"%string])
    ([GroupTagEntity.NullInt64 7 false] ++ [GroupTagEntity.NullInt64 9 false])
    SampleGroupTag.row =
    ({| GroupTagEntity.ID := 7%Z; GroupTagEntity.TagID := 2%Z;
        GroupTagEntity.GroupID := 3%Z; GroupTagEntity.selectValues := [] |},
     GroupTagEntity.returned None) /\
  (length ["group_id"%string; "tag_id"%string] =
     length [GroupTagEntity.NullInt64 7 true; GroupTagEntity.nilNullInt64] /\
   length ["id"%string] <= length [GroupTagEntity.NullInt64 99 true]) /\
  SampleGroupTag.assign (["group_id"%string; "tag_id"%string] ++ ["id"%string])
    ([GroupTagEntity.NullInt64 7 true; GroupTagEntity.nilNullInt64] ++
     [GroupTagEntity.NullInt64 99 true])
    SampleGroupTag.row =
    ({| GroupTagEntity.ID := 1%Z; GroupTagEntity.TagID := 2%Z;
        GroupTagEntity.GroupID := 7%Z; GroupTagEntity.selectValues := [] |},
     GroupTagEntity.panicked).
Proof.
  split; [split; simpl; lia|]. split; [|split; [split; simpl; lia|]].
  - exact (assign_values_in_order "id" "tag_id" "group_id" SampleGroupTag.Set_
             (fun x : Z => x) ["id"%string] ["tag_id"%string]
             [GroupTagEntity.NullInt64 7 false] [GroupTagEntity.NullInt64 9 false]
             SampleGroupTag.row eq_refl (le_n 1)).
  - exact (assign_values_in_order "id" "tag_id" "group_id" SampleGroupTag.Set_
             (fun x : Z => x) ["group_id"%string; "tag_id"%string] ["id"%string]
             [GroupTagEntity.NullInt64 7 true; GroupTagEntity.nilNullInt64]
             [GroupTagEntity.NullInt64 99 true]
             SampleGroupTag.row eq_refl (le_n 1)).
Defined.

